(** * SoulSketch memory pack validator: a shallow embedding and its properties

    Source: [tools/memory_pack_validator.py], class [MemoryPackValidator]
    and [main]; and, from [tools/inheritance_tracker.py], the two methods
    of [InheritanceTracker] that only read the pack,
    [_validate_memory_pack] and [_detect_current_identity].

    Modelling conventions.
    - A Python [str] is a [string]; each [ascii] stands for the code point
      of the same number, so the texts covered are those over U+0000..U+00FF.
      On that range [str.lower] is character-wise and the classes used by
      [str.strip], [str.split], [str.splitlines] and the [re] module's [\s]
      are the finite sets written out in [PyStr].
    - Python integers are [Z].
    - A [dict] whose iteration order the code relies on (the report and its
      sub-dictionaries) is an association list in insertion order; the pack
      directory, which is only looked up by name, is a [gmap].
    - Exceptions are values of type [exception]; a computation that may
      raise has type [exc A].  [try]/[except] is pattern matching on the
      outcome, keeping the assignments made before the raise.
    - The shared [results] dictionary that every validation stage mutates
      is threaded through the stages by a small state-and-exception monad.
    - [json.loads] and [json.dump] belong to the Python library, not to the
      repository: the validator is parameterised by them.  [PyJson.loads]
      is a reference decoder for the grammar CPython accepts, used where a
      statement needs concrete event-log lines.
    - [Path.exists()] raises on a path whose metadata the operating system
      refuses.  The validator is first written on a directory listing,
      where every such call answers, and then on a [host], which adds the
      refused paths; [validate_all_on_host] relates the two.
    - Console output ([print]) is not modelled. *)

From Stdlib Require Import String Ascii List ZArith Lia Bool DecimalString.
From stdpp Require Import gmap strings.
Import ListNotations.
Open Scope string_scope.
Open Scope list_scope.
Open Scope Z_scope.

(** ** Python [str] methods used by the validator *)

Module PyStr.

Definition code (c : ascii) : N := N_of_ascii c.

Definition LF : ascii := ascii_of_N 10.
Definition CR : ascii := ascii_of_N 13.

(** [str.isspace] on one character: TAB LF VT FF CR, FS GS RS US, SPACE,
    NEL (U+0085) and NBSP (U+00A0). *)
Definition isspace (c : ascii) : bool :=
  let n := code c in
  ((9 <=? n) && (n <=? 13) || (28 <=? n) && (n <=? 32)
   || (n =? 133) || (n =? 160))%N.

(** Line boundaries of [str.splitlines]: LF VT FF CR FS GS RS NEL. *)
Definition islinebreak (c : ascii) : bool :=
  let n := code c in
  ((10 <=? n) && (n <=? 13) || (28 <=? n) && (n <=? 30) || (n =? 133))%N.

Definition isdigit (c : ascii) : bool :=
  let n := code c in ((48 <=? n) && (n <=? 57))%N.

Definition lower_char (c : ascii) : ascii :=
  let n := code c in
  if ((65 <=? n) && (n <=? 90)
      || (192 <=? n) && (n <=? 222) && negb (n =? 215))%N
  then ascii_of_N (n + 32) else c.

Fixpoint lower (s : string) : string :=
  match s with
  | EmptyString => EmptyString
  | String c s' => String (lower_char c) (lower s')
  end.

Fixpoint lstrip (s : string) : string :=
  match s with
  | EmptyString => EmptyString
  | String c s' => if isspace c then lstrip s' else s
  end.

Fixpoint rstrip (s : string) : string :=
  match s with
  | EmptyString => EmptyString
  | String c s' =>
      match rstrip s' with
      | EmptyString => if isspace c then EmptyString else String c EmptyString
      | r => String c r
      end
  end.

(** [s.strip()] *)
Definition strip (s : string) : string := rstrip (lstrip s).

(** [s.startswith(p)] *)
Definition startswith (s p : string) : bool := String.prefix p s.

(** [s.endswith(p)] *)
Definition endswith (s p : string) : bool :=
  let n := String.length s in
  let k := String.length p in
  (k <=? n)%nat && String.eqb (String.substring (n - k) k s) p.

(** [sub in s] *)
Fixpoint contains (sub s : string) : bool :=
  String.prefix sub s
  || match s with
     | EmptyString => false
     | String _ s' => contains sub s'
     end.

(** [s.split(sep)] for a one-character separator: never returns the
    empty list, [''.split(sep) == ['']]. *)
Fixpoint split (sep : ascii) (s : string) : list string :=
  match s with
  | EmptyString => [EmptyString]
  | String c s' =>
      if Ascii.eqb c sep then EmptyString :: split sep s'
      else match split sep s' with
           | x :: xs => String c x :: xs
           | [] => [String c EmptyString]
           end
  end.

(** [s.split()]: the maximal runs of non-whitespace characters. *)
Fixpoint split_whitespace (s : string) : list string :=
  match s with
  | EmptyString => []
  | String c s' =>
      if isspace c then split_whitespace s'
      else match s' with
           | EmptyString => [String c EmptyString]
           | String c' _ =>
               if isspace c' then String c EmptyString :: split_whitespace s'
               else match split_whitespace s' with
                    | w :: ws => String c w :: ws
                    | [] => [String c EmptyString]
                    end
           end
  end.

(** [s.splitlines()]: CR LF counts as one boundary and a final boundary
    opens no further line.  [after_cr] records that the previous
    character was a CR that closed a line. *)
Fixpoint splitlines_from (after_cr : bool) (s : string) : list string :=
  match s with
  | EmptyString => []
  | String c s' =>
      if after_cr && Ascii.eqb c LF then splitlines_from false s'
      else if islinebreak c then EmptyString :: splitlines_from (Ascii.eqb c CR) s'
      else match splitlines_from false s' with
           | l :: ls => String c l :: ls
           | [] => [String c EmptyString]
           end
  end.

Definition splitlines (s : string) : list string := splitlines_from false s.

(** [str(n)] for an integer. *)
Definition str_of_int (n : Z) : string := NilZero.string_of_int (Z.to_int n).

(** [len] *)
Definition len {A} (l : list A) : Z := Z.of_nat (List.length l).

End PyStr.

(** ** The header pattern of the [re] module

    [re.findall(r'^#+\s+(.+)$', content, re.MULTILINE)]: a match starts at
    the beginning of a line, takes all the [#] there, then whitespace
    (line feeds included), then the rest of a line, which must not be
    empty.  When the whitespace run reaches the end of the text the
    matcher backtracks and hands the last character of the run that is
    not a line feed to the group. *)

Module PyRe.

Fixpoint span (p : ascii -> bool) (s : string) : string * string :=
  match s with
  | EmptyString => (EmptyString, EmptyString)
  | String c s' =>
      if p c then let '(a, b) := span p s' in (String c a, b)
      else (EmptyString, s)
  end.

Definition not_LF (c : ascii) : bool := negb (Ascii.eqb c PyStr.LF).
Definition is_hash (c : ascii) : bool := Ascii.eqb c "#"%char.

(** Position and value of the last character of [s] that is not LF. *)
Fixpoint last_not_LF (s : string) (i : nat) : option (nat * ascii) :=
  match s with
  | EmptyString => None
  | String c s' =>
      match last_not_LF s' (S i) with
      | Some r => Some r
      | None => if not_LF c then Some (i, c) else None
      end
  end.

(** A match of the pattern at the start of [s]: the group and the
    number of characters consumed. *)
Definition match_header (s : string) : option (string * nat) :=
  let '(hashes, r1) := span is_hash s in
  let '(ws, r2) := span PyStr.isspace r1 in
  match hashes, ws with
  | String _ _, String _ ws' =>
      match r2 with
      | String _ _ =>
          let g := fst (span not_LF r2) in
          Some (g, (String.length hashes + String.length ws + String.length g)%nat)
      | EmptyString =>
          match last_not_LF ws' 0 with
          | Some (i, c) =>
              Some (String c EmptyString, (String.length hashes + 1 + i + 1)%nat)
          | None => None
          end
      end
  | _, _ => None
  end.

(** Left-to-right scan for non-overlapping matches.  [skip] characters
    are still owed to the previous match; [bol] tells whether the
    current position starts a line. *)
Fixpoint findall_from (skip : nat) (bol : bool) (s : string) : list string :=
  match s with
  | EmptyString => []
  | String c s' =>
      match skip with
      | S k => findall_from k (Ascii.eqb c PyStr.LF) s'
      | O =>
          match (if bol then match_header s else None) with
          | Some (g, n) => g :: findall_from (Nat.pred n) (Ascii.eqb c PyStr.LF) s'
          | None => findall_from 0 (Ascii.eqb c PyStr.LF) s'
          end
      end
  end.

Definition findall_headers (content : string) : list string :=
  findall_from 0 true content.

End PyRe.

(** ** Exceptions *)

(** [JSONDecodeError] is the one class the validator names in an [except]
    clause; every other exception class is [Exception].  The payload is
    the text of [str(e)]. *)
Inductive exception : Type :=
| JSONDecodeError (msg : string)
| Exception (msg : string).

Definition str_of_exception (e : exception) : string :=
  match e with
  | JSONDecodeError msg => msg
  | Exception msg => msg
  end.

(** A computation that returns an [A] or raises. *)
Definition exc (A : Type) : Type := exception + A.

Definition exc_bind {A B} (c : exc A) (k : A -> exc B) : exc B :=
  match c with
  | inl e => inl e
  | inr a => k a
  end.

(** ** Reference decoder for [json.loads]

    Follows CPython's scanner ([json.decoder], [json.scanner] and their C
    accelerators) on a [str] argument: the accepted grammar, and for a
    rejected text the message and character offset of the
    [JSONDecodeError].  Interpreter limits (recursion depth, the digit
    limit of integer conversion) are outside the decoder. *)

Module PyJson.

(** A failure: message and offset. *)
Definition failure : Type := string * nat.
(** A success: the text that remains and its offset. *)
Definition cursor : Type := string * nat.

Definition is_ws (c : ascii) : bool :=
  let n := PyStr.code c in ((n =? 32) || (n =? 9) || (n =? 10) || (n =? 13))%N.

Fixpoint skip_ws (s : string) (idx : nat) : cursor :=
  match s with
  | String c s' => if is_ws c then skip_ws s' (S idx) else (s, idx)
  | EmptyString => (s, idx)
  end.

Definition is_hex (c : ascii) : bool :=
  let n := PyStr.code c in
  ((48 <=? n) && (n <=? 57) || (65 <=? n) && (n <=? 70)
   || (97 <=? n) && (n <=? 102))%N.

Definition is_simple_escape (c : ascii) : bool :=
  existsb (Ascii.eqb c)
    ["034" ; "\" ; "/" ; "b" ; "f" ; "n" ; "r" ; "t"]%char.

(** [scanstring]: [s] starts after the opening quote, at offset [idx];
    [begin] is the offset of the opening quote. *)
Fixpoint scanstring (s : string) (idx begin : nat) : failure + cursor :=
  match s with
  | EmptyString => inl ("Unterminated string starting at", begin)
  | String c s' =>
      if Ascii.eqb c "034"%char then inr (s', S idx)
      else if Ascii.eqb c "\"%char then
        match s' with
        | EmptyString => inl ("Unterminated string starting at", begin)
        | String e s'' =>
            if Ascii.eqb e "u"%char then
              match s'' with
              | String h1 (String h2 (String h3 (String h4 (String _ _ as r)))) =>
                  if is_hex h1 && is_hex h2 && is_hex h3 && is_hex h4
                  then scanstring r (idx + 6) begin
                  else inl ("Invalid \uXXXX escape", S idx)
              | _ => inl ("Invalid \uXXXX escape", S idx)
              end
            else if is_simple_escape e then scanstring s'' (idx + 2) begin
            else inl ("Invalid \escape", idx)
        end
      else if (PyStr.code c <=? 31)%N then inl ("Invalid control character at", idx)
      else scanstring s' (S idx) begin
  end.

Definition digits (s : string) : string * string := PyRe.span PyStr.isdigit s.

(** A JSON number: optional minus, then 0 or a digit run that does not
    start with 0, then optionally a dot with digits, then optionally an
    exponent mark with an optional sign and digits.  A dot or exponent
    that is not followed by digits is left unread. *)
Definition match_number (s : string) (idx : nat) : option cursor :=
  let '(s1, i1) :=
    match s with
    | String "-"%char r => (r, S idx)
    | _ => (s, idx)
    end in
  let int_part :=
    match s1 with
    | String c r =>
        if Ascii.eqb c "0"%char then Some (r, S i1)
        else if PyStr.isdigit c then
          let '(ds, r') := digits r in Some (r', (S i1 + String.length ds)%nat)
        else None
    | EmptyString => None
    end in
  match int_part with
  | None => None
  | Some (s2, i2) =>
      let '(s3, i3) :=
        match s2 with
        | String "."%char r =>
            let '(ds, r') := digits r in
            match ds with
            | EmptyString => (s2, i2)
            | _ => (r', (S i2 + String.length ds)%nat)
            end
        | _ => (s2, i2)
        end in
      match s3 with
      | String e r =>
          if Ascii.eqb e "e"%char || Ascii.eqb e "E"%char then
            let '(r1, sign) :=
              match r with
              | String "+"%char r1 => (r1, 1%nat)
              | String "-"%char r1 => (r1, 1%nat)
              | _ => (r, 0%nat)
              end in
            let '(ds, r') := digits r1 in
            match ds with
            | EmptyString => Some (s3, i3)
            | _ => Some (r', (S i3 + sign + String.length ds)%nat)
            end
          else Some (s3, i3)
      | EmptyString => Some (s3, i3)
      end
  end.

Fixpoint drop (n : nat) (s : string) : string :=
  match n, s with
  | S k, String _ s' => drop k s'
  | _, _ => s
  end.

(** A constant of the scanner: [null], [true], [false], [NaN],
    [Infinity], [-Infinity]. *)
Definition match_literal (s : string) (idx : nat) : option cursor :=
  let lit (w : string) :=
    if String.prefix w s
    then Some (drop (String.length w) s, (idx + String.length w)%nat)
    else None in
  match lit "null", lit "true", lit "false", lit "NaN", lit "Infinity", lit "-Infinity" with
  | Some r, _, _, _, _, _ => Some r
  | _, Some r, _, _, _, _ => Some r
  | _, _, Some r, _, _, _ => Some r
  | _, _, _, Some r, _, _ => Some r
  | _, _, _, _, Some r, _ => Some r
  | _, _, _, _, _, Some r => Some r
  | _, _, _, _, _, _ => None
  end.

(** [scan_once] with the object and array loops.  [fuel] bounds the
    number of pending scanner calls; [loads] supplies more than any text
    of its length can use. *)
Fixpoint scan_once (fuel : nat) (s : string) (idx : nat) : failure + cursor :=
  match fuel with
  | O => inl ("Expecting value", idx)
  | S fuel' =>
      match s with
      | EmptyString => inl ("Expecting value", idx)
      | String c r =>
          if Ascii.eqb c "034"%char then scanstring r (S idx) idx
          else if Ascii.eqb c "{"%char then
            let '(s1, i1) := skip_ws r (S idx) in
            match s1 with
            | String "}"%char r1 => inr (r1, S i1)
            | _ => object_loop fuel' s1 i1
            end
          else if Ascii.eqb c "["%char then
            let '(s1, i1) := skip_ws r (S idx) in
            match s1 with
            | String "]"%char r1 => inr (r1, S i1)
            | _ => array_loop fuel' s1 i1
            end
          else
            match match_literal s idx with
            | Some r => inr r
            | None =>
                match match_number s idx with
                | Some r => inr r
                | None => inl ("Expecting value", idx)
                end
            end
      end
  end

with object_loop (fuel : nat) (s : string) (idx : nat) : failure + cursor :=
  match fuel with
  | O => inl ("Expecting value", idx)
  | S fuel' =>
      match s with
      | String "034"%char r =>
          match scanstring r (S idx) idx with
          | inl f => inl f
          | inr (s1, i1) =>
              let '(s2, i2) := skip_ws s1 i1 in
              match s2 with
              | String ":"%char r2 =>
                  let '(s3, i3) := skip_ws r2 (S i2) in
                  match scan_once fuel' s3 i3 with
                  | inl f => inl f
                  | inr (s4, i4) =>
                      let '(s5, i5) := skip_ws s4 i4 in
                      match s5 with
                      | String "}"%char r5 => inr (r5, S i5)
                      | String ","%char r5 =>
                          let '(s6, i6) := skip_ws r5 (S i5) in
                          object_loop fuel' s6 i6
                      | _ => inl ("Expecting ',' delimiter", i5)
                      end
                  end
              | _ => inl ("Expecting ':' delimiter", i2)
              end
          end
      | _ => inl ("Expecting property name enclosed in double quotes", idx)
      end
  end

with array_loop (fuel : nat) (s : string) (idx : nat) : failure + cursor :=
  match fuel with
  | O => inl ("Expecting value", idx)
  | S fuel' =>
      match scan_once fuel' s idx with
      | inl f => inl f
      | inr (s1, i1) =>
          let '(s2, i2) := skip_ws s1 i1 in
          match s2 with
          | String "]"%char r2 => inr (r2, S i2)
          | String ","%char r2 =>
              let '(s3, i3) := skip_ws r2 (S i2) in
              array_loop fuel' s3 i3
          | _ => inl ("Expecting ',' delimiter", i2)
          end
      end
  end.

(** Line and column of offset [pos] in [doc], as [JSONDecodeError]
    computes them: lines are counted by LF only. *)
Fixpoint line_col (doc : string) (pos : nat) (line col : nat) : nat * nat :=
  match pos, doc with
  | S p, String c doc' =>
      if Ascii.eqb c PyStr.LF then line_col doc' p (S line) 1
      else line_col doc' p line (S col)
  | _, _ => (line, col)
  end.

(** [str(JSONDecodeError(msg, doc, pos))] *)
Definition error_text (msg doc : string) (pos : nat) : string :=
  let '(line, col) := line_col doc pos 1 1 in
  msg +:+ ": line " +:+ PyStr.str_of_int (Z.of_nat line)
      +:+ " column " +:+ PyStr.str_of_int (Z.of_nat col)
      +:+ " (char " +:+ PyStr.str_of_int (Z.of_nat pos) +:+ ")".

(** [json.loads(s)]; the decoded value is not used by the validator. *)
Definition loads (s : string) : exc unit :=
  let '(s1, i1) := skip_ws s 0 in
  match scan_once (2 * String.length s + 4) s1 i1 with
  | inl (msg, pos) => inl (JSONDecodeError (error_text msg s pos))
  | inr (s2, i2) =>
      let '(s3, i3) := skip_ws s2 i2 in
      match s3 with
      | EmptyString => inr tt
      | String _ _ => inl (JSONDecodeError (error_text "Extra data" s i3))
      end
  end.

End PyJson.

(** ** Monads for the validator's effects *)

Class Monad (m : Type -> Type) : Type :=
  { ret : forall {A}, A -> m A;
    bind : forall {A B}, m A -> (A -> m B) -> m B }.

Notation "x <- c ;; k" := (bind c (fun x => k))
  (at level 100, c at next level, right associativity).
Notation "c ;; k" := (bind c (fun _ => k))
  (at level 100, right associativity).

#[global] Instance Monad_exc : Monad exc :=
  {| ret := fun A (a : A) => inr a;
     bind := fun A B => @exc_bind A B |}.

(** ** The pack directory *)

(** What the file system answers for one existing path: [Path.is_file()],
    [Path.stat().st_size] and [Path.read_text(encoding='utf-8')], each of
    which may raise.  On a directory listing [Path.exists()] answers: a
    path exists when its directory lists it.  The paths on which
    [Path.exists()] itself raises are those of a [host], below. *)
Record node : Type :=
  { is_file : exc bool;
    st_size : exc Z;
    read_text : exc string }.

(** A directory maps entry names to nodes; the file system maps the path
    of a directory to its content. *)
Abbreviation directory := (gmap string node).
Abbreviation filesystem := (gmap string (gmap string node)).

(** [Path(pack) / filename], when it exists. *)
Definition resolve (fs : filesystem) (pack filename : string) : option node :=
  match fs !! pack with
  | Some d => d !! filename
  | None => None
  end.

(** A regular file holding ASCII text. *)
Definition regular_file (content : string) : node :=
  {| is_file := inr true;
     st_size := inr (Z.of_nat (String.length content));
     read_text := inr content |}.

(** ** The report and its parts *)

(** One entry of [results['file_structure']]. *)
Record FileResult : Type :=
  { exists_ : bool;
    readable : bool;
    size_bytes : Z;
    description : string;
    file_error : option string }.

(** One entry of [results['content_validation']].  The keys [warnings] and
    [metrics] are absent from an entry made by an [except] clause or the
    unknown-type branch; [error] is absent unless validation failed. *)
Record Validation : Type :=
  { valid : bool;
    warnings : option (list string);
    metrics : option (list (string * Z));
    error : option string }.

(** The [results] dictionary; [pack_path] is its key [memory_pack_path],
    the pack path as given (taken to be in [pathlib]'s normal form, so
    that [str(Path(p))] is [p]). *)
Record Results : Type :=
  { timestamp : string;
    pack_path : string;
    overall_status : string;
    file_structure : list (string * FileResult);
    content_validation : list (string * Validation);
    cross_references : list (string * string);
    recommendations : list string }.

(** [d[k] = v] on an insertion-ordered dictionary. *)
Fixpoint dict_set {V} (d : list (string * V)) (k : string) (v : V) : list (string * V) :=
  match d with
  | [] => [(k, v)]
  | (k', v') :: d' =>
      if String.eqb k' k then (k, v) :: d' else (k', v') :: dict_set d' k v
  end.

(** [d.get(k)] *)
Fixpoint dict_get {V} (d : list (string * V)) (k : string) : option V :=
  match d with
  | [] => None
  | (k', v') :: d' => if String.eqb k' k then Some v' else dict_get d' k
  end.

Definition set_readable (b : bool) (r : FileResult) : FileResult :=
  {| exists_ := exists_ r; readable := b; size_bytes := size_bytes r;
     description := description r; file_error := file_error r |}.

Definition set_size_bytes (n : Z) (r : FileResult) : FileResult :=
  {| exists_ := exists_ r; readable := readable r; size_bytes := n;
     description := description r; file_error := file_error r |}.

Definition set_file_error (e : string) (r : FileResult) : FileResult :=
  {| exists_ := exists_ r; readable := readable r; size_bytes := size_bytes r;
     description := description r; file_error := Some e |}.

(** [validation['warnings'].append(w)] *)
Definition append_warning (w : string) (v : Validation) : Validation :=
  {| valid := valid v;
     warnings := Some (default [] (warnings v) ++ [w]);
     metrics := metrics v; error := error v |}.

(** [validation['metrics'][k] = n] *)
Definition set_metric (k : string) (n : Z) (v : Validation) : Validation :=
  {| valid := valid v; warnings := warnings v;
     metrics := Some (dict_set (default [] (metrics v)) k n);
     error := error v |}.

(** [validation['metrics'][k]]; the validator reads only keys it has just
    written. *)
Definition get_metric (k : string) (v : Validation) : Z :=
  default 0 (dict_get (default [] (metrics v)) k).

Definition set_valid (b : bool) (v : Validation) : Validation :=
  {| valid := b; warnings := warnings v; metrics := metrics v; error := error v |}.

Definition set_error (e : string) (v : Validation) : Validation :=
  {| valid := valid v; warnings := warnings v; metrics := metrics v;
     error := Some e |}.

(** [{'valid': True, 'warnings': [], 'metrics': {}}] *)
Definition fresh_validation : Validation :=
  {| valid := true; warnings := Some []; metrics := Some []; error := None |}.

(** [{'valid': False, 'error': msg}] *)
Definition failed_validation (msg : string) : Validation :=
  {| valid := false; warnings := None; metrics := None; error := Some msg |}.

Definition set_overall_status (s : string) (r : Results) : Results :=
  {| timestamp := timestamp r; pack_path := pack_path r; overall_status := s;
     file_structure := file_structure r;
     content_validation := content_validation r;
     cross_references := cross_references r;
     recommendations := recommendations r |}.

Definition set_file_structure (x : list (string * FileResult)) (r : Results) : Results :=
  {| timestamp := timestamp r; pack_path := pack_path r;
     overall_status := overall_status r; file_structure := x;
     content_validation := content_validation r;
     cross_references := cross_references r;
     recommendations := recommendations r |}.

Definition set_content_validation (x : list (string * Validation)) (r : Results) : Results :=
  {| timestamp := timestamp r; pack_path := pack_path r;
     overall_status := overall_status r; file_structure := file_structure r;
     content_validation := x;
     cross_references := cross_references r;
     recommendations := recommendations r |}.

Definition set_cross_references (x : list (string * string)) (r : Results) : Results :=
  {| timestamp := timestamp r; pack_path := pack_path r;
     overall_status := overall_status r; file_structure := file_structure r;
     content_validation := content_validation r;
     cross_references := x;
     recommendations := recommendations r |}.

Definition set_recommendations (x : list string) (r : Results) : Results :=
  {| timestamp := timestamp r; pack_path := pack_path r;
     overall_status := overall_status r; file_structure := file_structure r;
     content_validation := content_validation r;
     cross_references := cross_references r;
     recommendations := x |}.

Definition set_timestamp (t : string) (r : Results) : Results :=
  {| timestamp := t; pack_path := pack_path r;
     overall_status := overall_status r; file_structure := file_structure r;
     content_validation := content_validation r;
     cross_references := cross_references r;
     recommendations := recommendations r |}.

(** A validation stage: it may update the shared [results] and may raise. *)
Definition M (A : Type) : Type := Results -> exc (A * Results).

#[global] Instance Monad_M : Monad M :=
  {| ret := fun A (a : A) (r : Results) => inr (a, r);
     bind := fun A B (c : M A) (k : A -> M B) (r : Results) =>
               match c r with
               | inl e => inl e
               | inr (a, r') => k a r'
               end |}.

Definition get : M Results := fun r => inr (r, r).
Definition modify (f : Results -> Results) : M unit := fun r => inr (tt, f r).

(** ** The validator *)

Record MemoryPackValidator : Type :=
  { memory_pack_path : string;
    required_files : list (string * string);
    validation_results : list (string * Validation) }.

Definition __init__ (memory_pack_path : string) : MemoryPackValidator :=
  {| memory_pack_path := memory_pack_path;
     required_files :=
       [ ("persona.md", "Core identity and self-understanding");
         ("relationship_dynamics.md", "Human bonds and collaborative rapport");
         ("technical_domains.md", "Expertise, preferences, and knowledge base");
         ("stylistic_voice.md", "Communication patterns and signature style");
         ("runtime_observations.jsonl", "Living memory stream and insights") ];
     validation_results := [] |}.

(** Body of the loop of [_validate_file_structure] on the locals
    [structure_results] and [all_files_valid]. *)
Definition file_structure_step (fs : filesystem) (self : MemoryPackValidator)
    (locals : list (string * FileResult) * bool) (item : string * string)
    : list (string * FileResult) * bool :=
  let '(structure_results, all_files_valid) := locals in
  let '(filename, description) := item in
  let file_path := resolve fs (memory_pack_path self) filename in
  let file_result :=
    {| exists_ := match file_path with Some _ => true | None => false end;
       readable := false; size_bytes := 0;
       description := description; file_error := None |} in
  let '(file_result, all_files_valid) :=
    match file_path with
    | Some n =>
        match is_file n with
        | inr b =>
            let file_result := set_readable b file_result in
            match st_size n with
            | inr size => (set_size_bytes size file_result, all_files_valid)
            | inl e => (set_file_error (str_of_exception e) file_result, false)
            end
        | inl e => (set_file_error (str_of_exception e) file_result, false)
        end
    | None => (file_result, false)
    end in
  (dict_set structure_results filename file_result, all_files_valid).

Definition _validate_file_structure (fs : filesystem) (self : MemoryPackValidator)
    : M bool :=
  let '(structure_results, all_files_valid) :=
    fold_left (file_structure_step fs self) (required_files self) ([], true) in
  modify (set_file_structure structure_results) ;;
  ret all_files_valid.

(** The [persona.md] loop over [required_sections]. *)
Definition persona_step (content : string) (validation : Validation)
    (section : string) : Validation :=
  if negb (PyStr.contains (PyStr.lower section) (PyStr.lower content))
  then append_warning ("Missing recommended section: " +:+ section) validation
  else validation.

Definition _validate_markdown_structure (filename content : string) : Validation :=
  let validation := fresh_validation in
  let validation :=
    if negb (PyStr.startswith (PyStr.strip content) "#")
    then append_warning "Missing main header" validation
    else validation in
  let headers := PyRe.findall_headers content in
  let validation := set_metric "header_count" (PyStr.len headers) validation in
  let validation :=
    set_metric "word_count" (PyStr.len (PyStr.split_whitespace content)) validation in
  let validation :=
    set_metric "line_count" (PyStr.len (PyStr.splitlines content)) validation in
  if String.eqb filename "persona.md" then
    let required_sections := ["Identity"; "Tone"; "Behavior"; "Self-Understanding"] in
    fold_left (persona_step content) required_sections validation
  else if String.eqb filename "relationship_dynamics.md" then
    if negb (PyStr.contains "john" (PyStr.lower content))
    then append_warning "No reference to primary collaborator John" validation
    else validation
  else if String.eqb filename "technical_domains.md" then
    if get_metric "word_count" validation <? 50
    then append_warning "Technical domains seem underdeveloped" validation
    else validation
  else validation.

(** [not line.strip()] *)
Definition blank (line : string) : bool :=
  match PyStr.strip line with
  | EmptyString => true
  | String _ _ => false
  end.

Section Validator.

(** [json.loads], of which the validator uses only whether it returns
    or raises, and [json.dump] as the text it writes. *)
Variable json_loads : string -> exc unit.
Variable json_dump : Results -> string.

(** The loop of [_validate_jsonl_structure] over [enumerate(lines)],
    from index [i], on the locals [validation] and [valid_json_count].
    Only [JSONDecodeError] is caught. *)
Fixpoint jsonl_loop (lines : list string) (i : Z) (validation : Validation)
    (valid_json_count : Z) : exc (Validation * Z) :=
  match lines with
  | [] => inr (validation, valid_json_count)
  | line :: rest =>
      if blank line then jsonl_loop rest (i + 1) validation valid_json_count
      else
        match json_loads line with
        | inr _ => jsonl_loop rest (i + 1) validation (valid_json_count + 1)
        | inl (JSONDecodeError e) =>
            jsonl_loop rest (i + 1)
              (append_warning
                 ("Invalid JSON on line " +:+ PyStr.str_of_int (i + 1) +:+ ": " +:+ e)
                 validation)
              valid_json_count
        | inl e => inl e
        end
  end.

Definition _validate_jsonl_structure (filename content : string) : exc Validation :=
  let validation := fresh_validation in
  let lines := PyStr.split PyStr.LF (PyStr.strip content) in
  locals <- jsonl_loop lines 0 validation 0 ;;
  let '(validation, valid_json_count) := locals in
  let validation := set_metric "total_lines" (PyStr.len lines) validation in
  let validation := set_metric "valid_json_lines" valid_json_count validation in
  let validation :=
    set_metric "invalid_lines" (PyStr.len lines - valid_json_count) validation in
  ret (if 0 <? get_metric "invalid_lines" validation
       then set_error
              (PyStr.str_of_int (get_metric "invalid_lines" validation)
               +:+ " invalid JSON lines")
              (set_valid false validation)
       else validation).

(** The [try] block of [_validate_content_structure] up to the
    assignment of [validation]. *)
Definition read_and_validate (filename : string) (n : node) : exc Validation :=
  content <- read_text n ;;
  if PyStr.endswith filename ".md"
  then ret (_validate_markdown_structure filename content)
  else if PyStr.endswith filename ".jsonl"
  then _validate_jsonl_structure filename content
  else ret (failed_validation "Unknown file type").

(** Body of the loop of [_validate_content_structure] on the locals
    [content_results] and [all_content_valid]. *)
Definition content_structure_step (fs : filesystem) (self : MemoryPackValidator)
    (locals : list (string * Validation) * bool) (filename : string)
    : list (string * Validation) * bool :=
  let '(content_results, all_content_valid) := locals in
  match resolve fs (memory_pack_path self) filename with
  | None => locals
  | Some n =>
      match read_and_validate filename n with
      | inr validation =>
          (dict_set content_results filename validation,
           if valid validation then all_content_valid else false)
      | inl e =>
          (dict_set content_results filename
             (failed_validation (str_of_exception e)),
           false)
      end
  end.

Definition _validate_content_structure (fs : filesystem)
    (self : MemoryPackValidator) : M bool :=
  let '(content_results, all_content_valid) :=
    fold_left (content_structure_step fs self)
      (map fst (required_files self)) ([], true) in
  modify (set_content_validation content_results) ;;
  ret all_content_valid.

Definition _validate_cross_references : M bool :=
  let cross_ref_results :=
    [ ("status", "basic_check_passed");
      ("notes", "Advanced cross-reference validation not yet implemented") ] in
  modify (set_cross_references cross_ref_results) ;;
  ret true.

(** First loop of [_generate_recommendations]. *)
Definition size_step (recommendations : list string)
    (item : string * FileResult) : list string :=
  let '(filename, file_info) := item in
  if size_bytes file_info <? 100
  then recommendations
       ++ ["Consider expanding " +:+ filename +:+ " - currently very brief"]
  else recommendations.

(** Second loop: [content_info.get('warnings')] is falsy when the key
    is absent and when the list is empty. *)
Definition warning_step (recommendations : list string)
    (item : string * Validation) : list string :=
  let '(filename, content_info) := item in
  match warnings content_info with
  | Some (w :: ws) =>
      fold_left
        (fun recommendations warning =>
           recommendations ++ [filename +:+ ": " +:+ warning])
        (w :: ws) recommendations
  | _ => recommendations
  end.

Definition _generate_recommendations : M unit :=
  results <- get ;;
  let recommendations := [] in
  let recommendations :=
    fold_left size_step (file_structure results) recommendations in
  let recommendations :=
    fold_left warning_step (content_validation results) recommendations in
  modify (set_recommendations recommendations).

(** [validate_all]; [now] is [datetime.now().isoformat()]. *)
Definition validate_all (fs : filesystem) (self : MemoryPackValidator)
    (now : string) : exc Results :=
  let results :=
    {| timestamp := now;
       pack_path := memory_pack_path self;
       overall_status := "UNKNOWN";
       file_structure := [];
       content_validation := [];
       cross_references := [];
       recommendations := [] |} in
  let stages : M Results :=
    structure_valid <- _validate_file_structure fs self ;;
    content_valid <- _validate_content_structure fs self ;;
    cross_ref_valid <- _validate_cross_references ;;
    _generate_recommendations ;;
    (if structure_valid && content_valid && cross_ref_valid
     then modify (set_overall_status "VALID")
     else if structure_valid && content_valid
     then modify (set_overall_status "VALID_WITH_WARNINGS")
     else modify (set_overall_status "INVALID")) ;;
    get in
  match stages results with
  | inl e => inl e
  | inr (results, _) => inr results
  end.

(** How a run of [main] ends. *)
Inductive outcome : Type :=
| SysExit (code : Z)
| Raised (e : exception)
| Returned.

(** [main] with [sys.argv = argv], on a listing.  [open_w] is what
    [open(results_file, 'w')] does; when it succeeds the report replaces
    whatever the pack held under that name.  The write that fails once
    the file is open is in [Host.main]. *)
Definition main (argv : list string) (now : string) (open_w : exc unit)
    (fs : filesystem) : outcome * filesystem :=
  if negb (PyStr.len argv =? 2) then (SysExit 1, fs)
  else
    let memory_pack_path := nth 1 argv "" in
    match fs !! memory_pack_path with
    | None => (SysExit 1, fs)
    | Some d =>
        let validator := __init__ memory_pack_path in
        match validate_all fs validator now with
        | inl e => (Raised e, fs)
        | inr results =>
            match open_w with
            | inl e => (Raised e, fs)
            | inr _ =>
                (Returned,
                 <[memory_pack_path :=
                     <["validation_results.json" :=
                         regular_file (json_dump results)]> d]> fs)
            end
        end
    end.

(** *** The report, artifact by artifact

    What the two passes record for one artifact, written without the
    loops; the loop lemmas below relate the code to these. *)

(** The [file_structure] entry of [filename]. *)
Definition file_result_of (fs : filesystem) (pack filename description : string)
    : FileResult :=
  match resolve fs pack filename with
  | None =>
      {| exists_ := false; readable := false; size_bytes := 0;
         description := description; file_error := None |}
  | Some n =>
      match is_file n with
      | inl e =>
          {| exists_ := true; readable := false; size_bytes := 0;
             description := description;
             file_error := Some (str_of_exception e) |}
      | inr b =>
          match st_size n with
          | inl e =>
              {| exists_ := true; readable := b; size_bytes := 0;
                 description := description;
                 file_error := Some (str_of_exception e) |}
          | inr size =>
              {| exists_ := true; readable := b; size_bytes := size;
                 description := description; file_error := None |}
          end
      end
  end.

(** The [file_structure] item of one item of [required_files]. *)
Definition file_entry (fs : filesystem) (pack : string) (item : string * string)
    : string * FileResult :=
  (fst item, file_result_of fs pack (fst item) (snd item)).

(** [filename] exists and its metadata could be read. *)
Definition structure_ok (fs : filesystem) (pack filename : string) : bool :=
  match resolve fs pack filename with
  | Some n =>
      match is_file n, st_size n with
      | inr _, inr _ => true
      | _, _ => false
      end
  | None => false
  end.

(** The [content_validation] entry of an existing artifact. *)
Definition validation_of (filename : string) (n : node) : Validation :=
  match read_and_validate filename n with
  | inr validation => validation
  | inl e => failed_validation (str_of_exception e)
  end.

(** The [content_validation] entries contributed by [filename]: none
    when it does not exist. *)
Definition content_entry (fs : filesystem) (pack filename : string)
    : list (string * Validation) :=
  match resolve fs pack filename with
  | Some n => [(filename, validation_of filename n)]
  | None => []
  end.

(** The recommendations as the specification words them: a note for
    every artifact whose recorded size is under 100 bytes, in
    enumeration order, then every warning of every content validation,
    labelled with its artifact, in artifact-then-warning order. *)
Definition spec_recommendations (file_structure : list (string * FileResult))
    (content_validation : list (string * Validation)) : list string :=
  map (fun item => "Consider expanding " +:+ fst item +:+ " - currently very brief")
      (List.filter (fun item => size_bytes (snd item) <? 100) file_structure)
  ++ flat_map
       (fun item =>
          map (fun warning => fst item +:+ ": " +:+ warning)
              (default [] (warnings (snd item))))
       content_validation.

(** The report of a run, assembled from the per-artifact descriptions. *)
Definition report_of (fs : filesystem) (self : MemoryPackValidator)
    (now : string) : Results :=
  let pack := memory_pack_path self in
  let names := map fst (required_files self) in
  let structure := map (file_entry fs pack) (required_files self) in
  let content := flat_map (content_entry fs pack) names in
  {| timestamp := now;
     pack_path := pack;
     overall_status :=
       if forallb (structure_ok fs pack) names
          && forallb (fun item => valid (snd item)) content
       then "VALID" else "INVALID";
     file_structure := structure;
     content_validation := content;
     cross_references :=
       [ ("status", "basic_check_passed");
         ("notes", "Advanced cross-reference validation not yet implemented") ];
     recommendations :=
       fold_left warning_step content (fold_left size_step structure []) |}.

End Validator.

(** ** Paths that cannot be reached

    [Path.exists()] returns [False] when [stat] fails with [ENOENT],
    [ENOTDIR], [EBADF] or [ELOOP] and re-raises every other [OSError]: the
    [PermissionError] of a pack directory that may not be searched, for
    one.  Both loops call it outside their [try] block, so such an
    exception leaves [validate_all] and [main].  A [host] is a file system
    together with the paths on which [Path.exists()] raises.  The
    definitions above are the run on a host that refuses nothing;
    [Host] has the methods of the class on any host. *)
Record host : Type :=
  { files : filesystem;
    refused : string -> string -> option exception }.

(** The host on which every [Path.exists()] answers. *)
Definition reachable (fs : filesystem) : host :=
  {| files := fs; refused := fun _ _ => None |}.

Module Host.

(** [(Path(pack) / filename).exists()], with the node when it is [True]. *)
Definition path_exists (h : host) (pack filename : string) : exc (option node) :=
  match refused h pack filename with
  | Some e => inl e
  | None => inr (resolve (files h) pack filename)
  end.

(** A [for] loop whose body may raise: the exception ends the loop. *)
Fixpoint for_each {A S : Type} (body : S -> A -> exc S) (items : list A)
    (locals : S) : exc S :=
  match items with
  | [] => inr locals
  | item :: rest =>
      match body locals item with
      | inl e => inl e
      | inr locals => for_each body rest locals
      end
  end.

(** A computation that leaves [results] alone. *)
Definition lift {A : Type} (c : exc A) : M A :=
  fun results =>
    match c with
    | inl e => inl e
    | inr a => inr (a, results)
    end.

(** Body of the loop of [_validate_file_structure]: [file_path.exists()]
    is evaluated while [file_result] is built, before the [try]; once it
    has answered the body is [file_structure_step]. *)
Definition file_structure_body (h : host) (self : MemoryPackValidator)
    (locals : list (string * FileResult) * bool) (item : string * string)
    : exc (list (string * FileResult) * bool) :=
  path_exists h (memory_pack_path self) (fst item) ;;
  ret (file_structure_step (files h) self locals item).

Definition _validate_file_structure (h : host) (self : MemoryPackValidator)
    : M bool :=
  locals <- lift (for_each (file_structure_body h self) (required_files self)
                    ([], true)) ;;
  let '(structure_results, all_files_valid) := locals in
  modify (set_file_structure structure_results) ;;
  ret all_files_valid.

Section Decoder.

Variable json_loads : string -> exc unit.
Variable json_dump : Results -> string.

(** Body of the loop of [_validate_content_structure]: the test
    [if not file_path.exists()] precedes the [try]. *)
Definition content_structure_body (h : host) (self : MemoryPackValidator)
    (locals : list (string * Validation) * bool) (filename : string)
    : exc (list (string * Validation) * bool) :=
  path_exists h (memory_pack_path self) filename ;;
  ret (content_structure_step json_loads (files h) self locals filename).

Definition _validate_content_structure (h : host) (self : MemoryPackValidator)
    : M bool :=
  locals <- lift (for_each (content_structure_body h self)
                    (map fst (required_files self)) ([], true)) ;;
  let '(content_results, all_content_valid) := locals in
  modify (set_content_validation content_results) ;;
  ret all_content_valid.

(** [validate_all]; [now] is [datetime.now().isoformat()]. *)
Definition validate_all (h : host) (self : MemoryPackValidator)
    (now : string) : exc Results :=
  let results :=
    {| timestamp := now;
       pack_path := memory_pack_path self;
       overall_status := "UNKNOWN";
       file_structure := [];
       content_validation := [];
       cross_references := [];
       recommendations := [] |} in
  let stages : M Results :=
    structure_valid <- _validate_file_structure h self ;;
    content_valid <- _validate_content_structure h self ;;
    cross_ref_valid <- _validate_cross_references ;;
    _generate_recommendations ;;
    (if structure_valid && content_valid && cross_ref_valid
     then modify (set_overall_status "VALID")
     else if structure_valid && content_valid
     then modify (set_overall_status "VALID_WITH_WARNINGS")
     else modify (set_overall_status "INVALID")) ;;
    get in
  match stages results with
  | inl e => inl e
  | inr (results, _) => inr results
  end.

(** [main] with [sys.argv = argv].  [os.path.exists] answers [False]
    where [stat] fails, whatever the error.  [open_w] is what
    [open(results_file, 'w')] does: when it succeeds the file is created
    or truncated.  [write_w] is what writing and closing it do: a failure
    comes with the text that had reached the file. *)
Definition main (argv : list string) (now : string) (open_w : exc unit)
    (write_w : exception * string + unit) (h : host) : outcome * host :=
  if negb (PyStr.len argv =? 2) then (SysExit 1, h)
  else
    let memory_pack_path := nth 1 argv "" in
    match files h !! memory_pack_path with
    | None => (SysExit 1, h)
    | Some d =>
        let validator := __init__ memory_pack_path in
        match validate_all h validator now with
        | inl e => (Raised e, h)
        | inr results =>
            let results_file (written : string) : host :=
              {| files :=
                   <[memory_pack_path :=
                       <["validation_results.json" := regular_file written]> d]>
                     (files h);
                 refused := refused h |} in
            match open_w with
            | inl e => (Raised e, h)
            | inr _ =>
                match write_w with
                | inl (e, written) => (Raised e, results_file written)
                | inr _ => (Returned, results_file (json_dump results))
                end
            end
        end
    end.

End Decoder.

End Host.

(** ** Vocabulary of the specification *)

(** The file-structure pass found every artifact, each a regular file
    whose metadata was read without error. *)
Definition all_artifacts_readable (r : Results) : bool :=
  forallb
    (fun item =>
       exists_ (snd item) && readable (snd item)
       && match file_error (snd item) with None => true | Some _ => false end)
    (file_structure r).

(** Every per-artifact validation has [valid == true]. *)
Definition all_artifacts_valid (r : Results) : bool :=
  forallb (fun item => valid (snd item)) (content_validation r).

(** At least one artifact's [warnings] list is non-empty. *)
Definition some_artifact_warns (r : Results) : bool :=
  existsb
    (fun item =>
       match warnings (snd item) with
       | Some (_ :: _) => true
       | _ => false
       end)
    (content_validation r).

(** What the generic header rule of a structured document contributes. *)
Definition header_warnings (content : string) : list string :=
  if PyStr.startswith (PyStr.strip content) "#" then [] else ["Missing main header"].

(** The non-blank lines among [lines]. *)
Definition nonblank (lines : list string) : list string :=
  List.filter (fun line => negb (blank line)) lines.

(** [line] does not parse as a single JSON value. *)
Definition malformed (json_loads : string -> exc unit) (line : string) : bool :=
  match json_loads line with
  | inl _ => true
  | inr _ => false
  end.

(** [line] is a record: not blank, and it parses. *)
Definition well_formed_record (json_loads : string -> exc unit) (line : string) : bool :=
  negb (blank line) && negb (malformed json_loads line).

(** [line] is a malformed record: not blank, and it does not parse. *)
Definition malformed_record (json_loads : string -> exc unit) (line : string) : bool :=
  negb (blank line) && malformed json_loads line.

(** The file's lines ([content.split('\n')], nothing stripped). *)
Definition file_lines (content : string) : list string :=
  PyStr.split PyStr.LF content.

(** Every character of [s] is whitespace. *)
Fixpoint all_space (s : string) : bool :=
  match s with
  | EmptyString => true
  | String c s' => PyStr.isspace c && all_space s'
  end.

(** [s] holds no line feed: it is a single line. *)
Fixpoint single_line (s : string) : bool :=
  match s with
  | EmptyString => true
  | String c s' => negb (Ascii.eqb c PyStr.LF) && single_line s'
  end.

(** [content] followed by a line feed and [line]. *)
Definition append_line (content line : string) : string :=
  content +:+ String PyStr.LF line.

(** ** Packs used in the examples *)

Module Fixtures.

Definition nl : string := String PyStr.LF EmptyString.
Definition dq : string := String "034"%char EmptyString.

(** ["\n".join(l)] *)
Definition text (l : list string) : string := String.concat nl l.

(** A JSON string literal without escapes. *)
Definition jstr (s : string) : string := dq +:+ s +:+ dq.

Definition persona_md : string :=
  text [ "# Persona"; "";
         "## Identity"; "A careful collaborator that keeps memory packs in order.";
         "## Tone"; "Warm and direct.";
         "## Behavior"; "Checks before acting.";
         "## Self-Understanding"; "Knows its own limits." ].

Definition relationship_dynamics_md : string :=
  text [ "# Relationship Dynamics"; "";
         "John is the primary collaborator; sessions with John are long, friendly and focused." ].

Definition technical_domains_md : string :=
  text ("# Technical Domains"
        :: repeat "Python tooling, formal verification, build systems, parsers and test design." 6).

(** Ten words, more than 100 bytes. *)
Definition technical_domains_10_words : string :=
  "# Technical Domains: verification, parsing, serialization, observability, reproducibility, interoperability, documentation".

Definition stylistic_voice_md : string :=
  text [ "# Stylistic Voice"; "";
         "Short sentences, concrete nouns, no filler. Prefers lists to paragraphs and examples to abstractions." ].

(** Three records, each a single JSON value. *)
Definition runtime_observations_jsonl : string :=
  text [ "{" +:+ jstr "event" +:+ ": " +:+ jstr "session_start" +:+ ", "
             +:+ jstr "ok" +:+ ": true}";
         "{" +:+ jstr "event" +:+ ": " +:+ jstr "observation" +:+ ", "
             +:+ jstr "tags" +:+ ": [1, 2, 3], " +:+ jstr "weight" +:+ ": 1.5e0}";
         "{" +:+ jstr "event" +:+ ": " +:+ jstr "session_end" +:+ ", "
             +:+ jstr "next" +:+ ": null}" ].

Definition pack : string := "/packs/alice".

Definition make_fs (files : list (string * string)) : filesystem :=
  {[ pack := list_to_map (map (fun f => (fst f, regular_file (snd f))) files) ]}.

(** The pack of the all-valid scenario. *)
Definition valid_files : list (string * string) :=
  [ ("persona.md", persona_md);
    ("relationship_dynamics.md", relationship_dynamics_md);
    ("technical_domains.md", technical_domains_md);
    ("stylistic_voice.md", stylistic_voice_md);
    ("runtime_observations.jsonl", runtime_observations_jsonl) ].

Definition valid_fs : filesystem := make_fs valid_files.

(** The same pack with a ten-word technical-domains document. *)
Definition brief_fs : filesystem :=
  make_fs
    [ ("persona.md", persona_md);
      ("relationship_dynamics.md", relationship_dynamics_md);
      ("technical_domains.md", technical_domains_10_words);
      ("stylistic_voice.md", stylistic_voice_md);
      ("runtime_observations.jsonl", runtime_observations_jsonl) ].

(** The all-valid pack with [log] as its event log. *)
Definition log_fs (log : string) : filesystem :=
  make_fs
    [ ("persona.md", persona_md);
      ("relationship_dynamics.md", relationship_dynamics_md);
      ("technical_domains.md", technical_domains_md);
      ("stylistic_voice.md", stylistic_voice_md);
      ("runtime_observations.jsonl", log) ].

(** Two well-formed records around an empty line. *)
Definition log_with_gap : string := text [ "[1]"; ""; "[2]" ].

(** A malformed first record, an empty line, a well-formed record. *)
Definition log_broken : string := text [ "{bad"; ""; "{}" ].

(** [log_broken] with its one malformed line replaced by a record. *)
Definition log_repaired : string := text [ "{}"; ""; "{}" ].

(** The all-valid pack, except that [persona.md] cannot be read and the
    event log has a malformed second line. *)
Definition damaged_fs : filesystem :=
  {[ pack :=
       <["persona.md" :=
           {| is_file := inr true; st_size := inr 182;
              read_text := inl (Exception "[Errno 13] Permission denied: 'persona.md'") |}]>
       (<["runtime_observations.jsonl" :=
            regular_file (text [ "{}"; "{" +:+ jstr "bad" +:+ ":}" ])]>
          (list_to_map (map (fun f => (fst f, regular_file (snd f))) valid_files))) ]}.

(** A decoder that gives up on one line with an exception of another
    class, as [json.loads] does past the interpreter's recursion limit. *)
Definition limited_loads (line : string) : exc unit :=
  if String.eqb line "[[[[[[[[]]]]]]]]"
  then inl (Exception "maximum recursion depth exceeded")
  else PyJson.loads line.

(** The all-valid pack, except that the metadata of the voice document
    cannot be read. *)
Definition unstattable_fs : filesystem :=
  {[ pack :=
       <["stylistic_voice.md" :=
           {| is_file := inr true;
              st_size := inl (Exception "[Errno 5] Input/output error");
              read_text := inr stylistic_voice_md |}]>
       (list_to_map (map (fun f => (fst f, regular_file (snd f))) valid_files)) ]}.

(** A persona document that names its identity after a template line. *)
Definition named_persona_md : string :=
  text [ "# Persona"; "";
         "- Name: [Your AI Name]";
         "- **Name**:  Alice : steward";
         "- Tone: warm" ].

(** A pack directory that holds none of the required artifacts. *)
Definition empty_fs : filesystem := {[ pack := ∅ ]}.

Definition now : string := "2025-01-01T00:00:00".

(** The all-valid pack in a directory that may be listed but not
    searched: [stat] on each of its entries fails with [EACCES]. *)
Definition locked_host : host :=
  {| files := valid_fs;
     refused := fun dir f =>
       if String.eqb dir pack
       then Some (Exception ("[Errno 13] Permission denied: '"
                             +:+ dir +:+ "/" +:+ f +:+ "'"))
       else None |}.

End Fixtures.

(** ** Declarative readings used by the further properties *)

(** What the artifact-specific rules of a structured document add, after
    the header rule, written as list comprehensions. *)
Definition specific_warnings (filename content : string) : list string :=
  if String.eqb filename "persona.md" then
    map (fun section => "Missing recommended section: " +:+ section)
        (List.filter
           (fun section =>
              negb (PyStr.contains (PyStr.lower section) (PyStr.lower content)))
           ["Identity"; "Tone"; "Behavior"; "Self-Understanding"])
  else if String.eqb filename "relationship_dynamics.md" then
    if PyStr.contains "john" (PyStr.lower content) then []
    else ["No reference to primary collaborator John"]
  else if String.eqb filename "technical_domains.md" then
    if PyStr.len (PyStr.split_whitespace content) <? 50
    then ["Technical domains seem underdeveloped"]
    else []
  else [].

(** An artifact in good order: it exists, its metadata and its text can
    be read. *)
Definition in_good_order (fs : filesystem) (pack f : string) : Prop :=
  exists n b size content,
    resolve fs pack f = Some n /\ is_file n = inr b /\ st_size n = inr size
    /\ read_text n = inr content.

(** The exception of the first of [names] on which [Path.exists()]
    raises. *)
Fixpoint first_refusal (h : host) (pack : string) (names : list string)
    : option exception :=
  match names with
  | [] => None
  | f :: rest =>
      match refused h pack f with
      | Some e => Some e
      | None => first_refusal h pack rest
      end
  end.

(** The lines with their 1-based positions, counting from [first]. *)
Fixpoint numbered (first : Z) (lines : list string) : list (Z * string) :=
  match lines with
  | [] => []
  | line :: rest => (first, line) :: numbered (first + 1) rest
  end.

(** The warning, if any, that a line at position [k] earns. *)
Definition line_warning (json_loads : string -> exc unit) (item : Z * string)
    : list string :=
  let '(k, line) := item in
  if blank line then []
  else match json_loads line with
       | inl (JSONDecodeError e) =>
           ["Invalid JSON on line " +:+ PyStr.str_of_int k +:+ ": " +:+ e]
       | _ => []
       end.

(** ** The inheritance tracker's checks on a pack

    Source: [tools/inheritance_tracker.py], the two methods of
    [InheritanceTracker] that only read the pack.  A tracker is given by
    its attributes. *)

Module Tracker.

Record InheritanceTracker : Type :=
  { memory_pack_path : string;
    git_repo_path : option string;
    inheritance_log_path : string }.

(** The dictionary [_validate_memory_pack] returns. *)
Record PackCheck : Type :=
  { valid : bool;
    missing_files : list string;
    file_count : Z }.

Definition required_files : list string :=
  [ "persona.md"; "relationship_dynamics.md"; "technical_domains.md";
    "stylistic_voice.md"; "runtime_observations.jsonl" ].

(** Body of the loop of [_validate_memory_pack]. *)
Definition check_step (fs : filesystem) (self : InheritanceTracker)
    (validation : PackCheck) (filename : string) : PackCheck :=
  match resolve fs (memory_pack_path self) filename with
  | Some _ =>
      {| valid := valid validation;
         missing_files := missing_files validation;
         file_count := file_count validation + 1 |}
  | None =>
      {| valid := false;
         missing_files := missing_files validation ++ [filename];
         file_count := file_count validation |}
  end.

Definition _validate_memory_pack (fs : filesystem) (self : InheritanceTracker)
    : PackCheck :=
  let validation := {| valid := true; missing_files := []; file_count := 0 |} in
  fold_left (check_step fs self) required_files validation.

(** The loop of [_detect_current_identity] over the lines of the persona
    document: [inr (Some name)] is a [return name], [inr None] the end of
    the loop, [inl] an [IndexError] of [line.split(':')[1]]. *)
Fixpoint scan_for_name (lines : list string) : exc (option string) :=
  match lines with
  | [] => inr None
  | line :: rest =>
      if PyStr.contains "Name" line && PyStr.contains ":" line then
        match nth_error (PyStr.split ":"%char line) 1 with
        | None => inl (Exception "list index out of range")
        | Some part =>
            let name := PyStr.strip part in
            if negb (String.eqb name EmptyString)
               && negb (String.eqb name "[Your AI Name]")
            then inr (Some name)
            else scan_for_name rest
        end
      else scan_for_name rest
  end.

(** [_detect_current_identity]: the bare [except] swallows whatever the
    [try] block raises. *)
Definition _detect_current_identity (fs : filesystem) (self : InheritanceTracker)
    : string :=
  match resolve fs (memory_pack_path self) "persona.md" with
  | Some persona_file =>
      match exc_bind (read_text persona_file)
              (fun content => scan_for_name (PyStr.split PyStr.LF content)) with
      | inr (Some name) => name
      | inr None => "Unknown Identity"
      | inl _ => "Unknown Identity"
      end
  | None => "Unknown Identity"
  end.

End Tracker.

(** * Properties *)

(** ** Insertion-ordered dictionaries *)

Lemma dict_set_fresh {V} (d : list (string * V)) (k : string) (v : V) :
  ~ In k (map fst d) -> dict_set d k v = d ++ [(k, v)].
Proof.
  induction d as [|[k' v'] d IH]; simpl; intros Hk; [reflexivity|].
  destruct (String.eqb_spec k' k) as [->|Hne].
  - exfalso. apply Hk. now left.
  - f_equal. apply IH. intros Hin. apply Hk. now right.
Qed.

Lemma dict_get_app_fresh {V} (d1 d2 : list (string * V)) (k : string) :
  ~ In k (map fst d1) -> dict_get (d1 ++ d2) k = dict_get d2 k.
Proof.
  induction d1 as [|[k' v'] d1 IH]; simpl; intros Hk; [reflexivity|].
  destruct (String.eqb_spec k' k) as [->|Hne].
  - exfalso. apply Hk. now left.
  - apply IH. intros Hin. apply Hk. now right.
Qed.

Lemma dict_get_None {V} (d : list (string * V)) (k : string) :
  ~ In k (map fst d) -> dict_get d k = None.
Proof.
  induction d as [|[k' v'] d IH]; simpl; intros Hk; [reflexivity|].
  destruct (String.eqb_spec k' k) as [->|Hne].
  - exfalso. apply Hk. now left.
  - apply IH. intros Hin. apply Hk. now right.
Qed.

(** ** The two passes over the required artifacts *)

Section Passes.

Variable json_loads : string -> exc unit.
Variable fs : filesystem.
Variable self : MemoryPackValidator.

Let pack := memory_pack_path self.

Lemma file_structure_step_eq (d : list (string * FileResult)) (b : bool)
    (item : string * string) :
  file_structure_step fs self (d, b) item
  = (dict_set d (fst item) (snd (file_entry fs pack item)),
     b && structure_ok fs pack (fst item)).
Proof.
  destruct item as [filename descr].
  unfold file_structure_step, file_entry, file_result_of, structure_ok, pack.
  simpl. destruct (resolve fs (memory_pack_path self) filename) as [n|].
  - destruct (is_file n) as [e|r]; [now rewrite andb_false_r|].
    destruct (st_size n) as [e|size]; [now rewrite andb_false_r|].
    now rewrite andb_true_r.
  - now rewrite andb_false_r.
Qed.

Lemma file_structure_fold (items : list (string * string)) :
  forall (d : list (string * FileResult)) (b : bool),
    List.NoDup (map fst items) ->
    (forall k, In k (map fst items) -> ~ In k (map fst d)) ->
    fold_left (file_structure_step fs self) items (d, b)
    = (d ++ map (file_entry fs pack) items,
       b && forallb (structure_ok fs pack) (map fst items)).
Proof.
  induction items as [|item items IH]; intros d b Hnd Hfresh; cbn [fold_left map forallb].
  - now rewrite app_nil_r, andb_true_r.
  - rewrite file_structure_step_eq.
    rewrite dict_set_fresh by (apply Hfresh; now left).
    simpl in Hnd. apply List.NoDup_cons_iff in Hnd as [Hhd Hnd].
    rewrite IH; [| assumption |].
    + rewrite <- app_assoc. simpl. now rewrite andb_assoc.
    + intros k Hk. rewrite map_app, in_app_iff. simpl.
      intros [Hin | [<- | []]].
      * revert Hin. apply Hfresh. now right.
      * now apply Hhd.
Qed.

Lemma content_structure_step_eq (d : list (string * Validation)) (b : bool)
    (filename : string) :
  ~ In filename (map fst d) ->
  content_structure_step json_loads fs self (d, b) filename
  = (d ++ content_entry json_loads fs pack filename,
     b && forallb (fun item => valid (snd item))
            (content_entry json_loads fs pack filename)).
Proof.
  intros Hfresh.
  unfold content_structure_step, content_entry, validation_of, pack.
  destruct (resolve fs (memory_pack_path self) filename) as [n|].
  - destruct (read_and_validate json_loads filename n) as [e|v];
      rewrite dict_set_fresh by assumption; simpl.
    + now rewrite andb_false_r.
    + rewrite andb_true_r. destruct (valid v); now rewrite ?andb_true_r, ?andb_false_r.
  - simpl. now rewrite app_nil_r, andb_true_r.
Qed.

Lemma content_entry_keys (filename k : string) :
  In k (map fst (content_entry json_loads fs pack filename)) -> k = filename.
Proof.
  unfold content_entry. destruct (resolve fs pack filename); simpl; intuition.
Qed.

Lemma content_structure_fold (names : list string) :
  forall (d : list (string * Validation)) (b : bool),
    List.NoDup names ->
    (forall k, In k names -> ~ In k (map fst d)) ->
    fold_left (content_structure_step json_loads fs self) names (d, b)
    = (d ++ flat_map (content_entry json_loads fs pack) names,
       b && forallb (fun item => valid (snd item))
              (flat_map (content_entry json_loads fs pack) names)).
Proof.
  induction names as [|name names IH]; intros d b Hnd Hfresh; cbn [fold_left flat_map].
  - now rewrite app_nil_r, andb_true_r.
  - rewrite content_structure_step_eq by (apply Hfresh; now left).
    apply List.NoDup_cons_iff in Hnd as [Hhd Hnd].
    rewrite IH; [| assumption |].
    + rewrite <- app_assoc, forallb_app. now rewrite andb_assoc.
    + intros k Hk. rewrite map_app, in_app_iff.
      intros [Hin | Hin].
      * revert Hin. apply Hfresh. now right.
      * apply content_entry_keys in Hin. subst k. now apply Hhd.
Qed.

End Passes.

(** ** The run as a whole *)

Section Run.

Variable json_loads : string -> exc unit.

(** [validate_all] returns, and what it returns is [report_of]. *)
Lemma validate_all_report (fs : filesystem) (self : MemoryPackValidator)
    (now : string) :
  List.NoDup (map fst (required_files self)) ->
  validate_all json_loads fs self now = inr (report_of json_loads fs self now).
Proof.
  intros Hnd.
  unfold validate_all, _validate_file_structure, _validate_content_structure.
  rewrite file_structure_fold by (assumption || (intros k _ [])).
  rewrite content_structure_fold by (assumption || (intros k _ [])).
  cbn [app andb]. unfold report_of.
  destruct (forallb (structure_ok fs (memory_pack_path self))
              (map fst (required_files self)));
    destruct (forallb (fun item => valid (snd item))
                (flat_map (content_entry json_loads fs (memory_pack_path self))
                   (map fst (required_files self))));
    reflexivity.
Qed.

Lemma required_files_NoDup (pack : string) :
  List.NoDup (map fst (required_files (__init__ pack))).
Proof.
  cbn. repeat (apply List.NoDup_cons; [cbn; intuition discriminate|]).
  apply List.NoDup_nil.
Qed.

Lemma validate_all_init (fs : filesystem) (pack now : string) :
  validate_all json_loads fs (__init__ pack) now
  = inr (report_of json_loads fs (__init__ pack) now).
Proof. apply validate_all_report, required_files_NoDup. Qed.

(** *** On a host

    Each loop raises the exception of the first artifact on which
    [Path.exists()] raises, and runs as on the listing when there is
    none. *)
Lemma for_each_file_structure (h : host) (self : MemoryPackValidator)
    (items : list (string * string)) :
  forall locals,
    Host.for_each (Host.file_structure_body h self) items locals
    = match first_refusal h (memory_pack_path self) (map fst items) with
      | Some e => inl e
      | None => inr (fold_left (file_structure_step (files h) self) items locals)
      end.
Proof.
  induction items as [|item items IH]; intros locals;
    cbn [Host.for_each map first_refusal fold_left]; [reflexivity|].
  unfold Host.file_structure_body at 1, Host.path_exists.
  cbn [bind ret Monad_exc exc_bind].
  destruct (refused h (memory_pack_path self) (fst item)); [reflexivity|].
  cbn [exc_bind]. apply IH.
Qed.

Lemma for_each_content_structure (h : host) (self : MemoryPackValidator)
    (names : list string) :
  forall locals,
    Host.for_each (Host.content_structure_body json_loads h self) names locals
    = match first_refusal h (memory_pack_path self) names with
      | Some e => inl e
      | None =>
          inr (fold_left (content_structure_step json_loads (files h) self)
                 names locals)
      end.
Proof.
  induction names as [|name names IH]; intros locals;
    cbn [Host.for_each first_refusal fold_left]; [reflexivity|].
  unfold Host.content_structure_body at 1, Host.path_exists.
  cbn [bind ret Monad_exc exc_bind].
  destruct (refused h (memory_pack_path self) name); [reflexivity|].
  cbn [exc_bind]. apply IH.
Qed.

(** [validate_all] on a host: the exception of the first refused
    artifact, or the run on the listing. *)
Lemma validate_all_on_host (h : host) (self : MemoryPackValidator)
    (now : string) :
  Host.validate_all json_loads h self now
  = match first_refusal h (memory_pack_path self)
            (map fst (required_files self)) with
    | Some e => inl e
    | None => validate_all json_loads (files h) self now
    end.
Proof.
  unfold Host.validate_all, Host._validate_file_structure,
    Host._validate_content_structure, validate_all,
    _validate_file_structure, _validate_content_structure.
  cbn [bind Monad_M]. unfold Host.lift.
  rewrite for_each_file_structure, for_each_content_structure.
  destruct (first_refusal h (memory_pack_path self)
              (map fst (required_files self))); [reflexivity|].
  destruct (fold_left (file_structure_step (files h) self) (required_files self)
              ([], true)) as [structure_results all_files_valid].
  cbn [bind Monad_M modify ret].
  destruct (fold_left (content_structure_step json_loads (files h) self)
              (map fst (required_files self)) ([], true))
    as [content_results all_content_valid].
  reflexivity.
Qed.

Lemma first_refusal_none (h : host) (pack : string) (names : list string) :
  first_refusal h pack names = None
  <-> forall f, In f names -> refused h pack f = None.
Proof.
  induction names as [|name names IH]; cbn [first_refusal].
  - split; [intros _ f [] | reflexivity].
  - destruct (refused h pack name) eqn:E.
    + split; [discriminate|]. intros H. rewrite (H name) in E; [discriminate|now left].
    + rewrite IH. split.
      * intros H f [<-|Hf]; [assumption | now apply H].
      * intros H f Hf. apply H. now right.
Qed.

Lemma first_refusal_some (h : host) (pack : string) (names : list string)
    (e : exception) :
  first_refusal h pack names = Some e ->
  exists f, In f names /\ refused h pack f = Some e.
Proof.
  induction names as [|name names IH]; cbn [first_refusal]; [discriminate|].
  destruct (refused h pack name) eqn:E.
  - intros [= <-]. exists name. split; [now left | assumption].
  - intros H. destruct (IH H) as (f & Hf & Hr). exists f. split; [now right | assumption].
Qed.

(** The two loops of [_generate_recommendations] against the
    specification's wording. *)
Lemma size_step_fold (structure : list (string * FileResult)) :
  forall acc : list string,
    fold_left size_step structure acc
    = acc ++ map (fun item => "Consider expanding " +:+ fst item
                                +:+ " - currently very brief")
               (List.filter (fun item => size_bytes (snd item) <? 100) structure).
Proof.
  induction structure as [|[f info] structure IH]; intros acc; cbn [fold_left].
  - cbn. now rewrite app_nil_r.
  - rewrite IH. unfold size_step. cbn [List.filter fst snd].
    destruct (size_bytes info <? 100); cbn [map].
    + now rewrite <- app_assoc.
    + reflexivity.
Qed.

Lemma label_fold (f : string) (ws : list string) :
  forall acc : list string,
    fold_left (fun recs warning => recs ++ [f +:+ ": " +:+ warning]) ws acc
    = acc ++ map (fun warning => f +:+ ": " +:+ warning) ws.
Proof.
  induction ws as [|w ws IH]; intros acc; cbn [fold_left map].
  - now rewrite app_nil_r.
  - rewrite IH. now rewrite <- app_assoc.
Qed.

Lemma warning_step_fold (content : list (string * Validation)) :
  forall acc : list string,
    fold_left warning_step content acc
    = acc ++ flat_map
               (fun item =>
                  map (fun warning => fst item +:+ ": " +:+ warning)
                      (default [] (warnings (snd item))))
               content.
Proof.
  induction content as [|[f info] content IH]; intros acc;
    cbn [fold_left flat_map].
  - now rewrite app_nil_r.
  - rewrite IH. unfold warning_step. cbn [fst snd].
    destruct (warnings info) as [[|w ws]|]; cbn [default];
      rewrite ?label_fold, ?app_nil_r, <- ?app_assoc; reflexivity.
Qed.

End Run.

(** ** Structured documents *)

Lemma append_warning_keeps (w : string) (v : Validation) :
  valid (append_warning w v) = valid v
  /\ error (append_warning w v) = error v
  /\ warnings (append_warning w v) = Some (default [] (warnings v) ++ [w]).
Proof. now unfold append_warning. Qed.

Lemma set_metric_keeps (k : string) (n : Z) (v : Validation) :
  valid (set_metric k n v) = valid v
  /\ error (set_metric k n v) = error v
  /\ warnings (set_metric k n v) = warnings v.
Proof. now unfold set_metric. Qed.

(** The [persona.md] loop only appends warnings. *)
Lemma persona_fold_keeps (content : string) (sections : list string) :
  forall (v : Validation) (ws : list string),
    warnings v = Some ws ->
    let v' := fold_left (persona_step content) sections v in
    valid v' = valid v /\ error v' = error v
    /\ exists extra, warnings v' = Some (ws ++ extra).
Proof.
  induction sections as [|s sections IH]; intros v ws Hws; cbn [fold_left].
  - repeat split. exists []. now rewrite app_nil_r.
  - unfold persona_step at 2 4 6. destruct (negb _).
    + destruct (IH (append_warning ("Missing recommended section: " +:+ s) v)
                  (ws ++ ["Missing recommended section: " +:+ s]))
        as (Hv & He & extra & Hw).
      { unfold append_warning. cbn. now rewrite Hws. }
      cbn zeta in *. rewrite Hv, He, Hw. repeat split.
      exists (("Missing recommended section: " +:+ s) :: extra).
      now rewrite <- app_assoc.
    + now apply IH.
Qed.

(** C7.  For every file name and every content,
    [_validate_markdown_structure] returns [valid == True] and no [error]:
    a content whose stripped text does not start with [#] gets the warning
    [Missing main header], and the artifact-specific checks only append
    further warnings after it. *)
Theorem markdown_never_fails (filename content : string) :
  let v := _validate_markdown_structure filename content in
  valid v = true
  /\ error v = None
  /\ exists specific, warnings v = Some (header_warnings content ++ specific).
Proof.
  cbn zeta. unfold _validate_markdown_structure.
  set (v0 := if negb (PyStr.startswith (PyStr.strip content) "#")
             then append_warning "Missing main header" fresh_validation
             else fresh_validation).
  assert (H0 : valid v0 = true /\ error v0 = None
               /\ warnings v0 = Some (header_warnings content)).
  { unfold v0, header_warnings.
    destruct (PyStr.startswith (PyStr.strip content) "#"); now cbn. }
  clearbody v0. destruct H0 as (Hv0 & He0 & Hw0).
  set (v3 := set_metric "line_count" _ (set_metric "word_count" _
               (set_metric "header_count" _ v0))).
  assert (H3 : valid v3 = true /\ error v3 = None
               /\ warnings v3 = Some (header_warnings content)).
  { unfold v3. now cbn. }
  clearbody v3. destruct H3 as (Hv3 & He3 & Hw3).
  destruct (String.eqb filename "persona.md").
  { destruct (persona_fold_keeps content
                ["Identity"; "Tone"; "Behavior"; "Self-Understanding"] v3 _ Hw3)
      as (Hv & He & extra & Hw).
    rewrite Hv, He. repeat split; try assumption. now exists extra. }
  destruct (String.eqb filename "relationship_dynamics.md").
  { destruct (negb (PyStr.contains "john" (PyStr.lower content)));
      cbn; rewrite ?Hv3, ?He3, ?Hw3; repeat split.
    - now eexists.
    - exists []. now rewrite app_nil_r. }
  destruct (String.eqb filename "technical_domains.md").
  { destruct (get_metric "word_count" v3 <? 50);
      cbn; rewrite ?Hv3, ?He3, ?Hw3; repeat split.
    - now eexists.
    - exists []. now rewrite app_nil_r. }
  repeat split; try assumption. exists []. now rewrite app_nil_r.
Qed.

(** ** Recommendations *)

Lemma recommendations_fold (structure : list (string * FileResult))
    (content : list (string * Validation)) :
  fold_left warning_step content (fold_left size_step structure [])
  = spec_recommendations structure content.
Proof.
  rewrite warning_step_fold, size_step_fold. reflexivity.
Qed.

(** C8.  The recommendations stage, run on any state of the report,
    stores the specification's flattening of that state's file-structure
    and content-validation entries (size notes first, then every warning
    labelled with its artifact, nothing removed); and so the report of
    every run carries exactly that list. *)
Theorem recommendations_are_flattened (json_loads : string -> exc unit)
    (fs : filesystem) (pack now : string) :
  (forall results : Results,
      _generate_recommendations results
      = inr (tt, set_recommendations
                   (spec_recommendations (file_structure results)
                      (content_validation results))
                   results))
  /\ exists r, validate_all json_loads fs (__init__ pack) now = inr r
       /\ recommendations r
          = spec_recommendations (file_structure r) (content_validation r).
Proof.
  split.
  - intros results. unfold _generate_recommendations. cbn.
    unfold modify. now rewrite recommendations_fold.
  - eexists. split; [apply validate_all_init|].
    unfold report_of. cbn [recommendations file_structure content_validation].
    apply recommendations_fold.
Qed.

(** ** Missing artifacts *)

Lemma content_entry_absent (json_loads : string -> exc unit) (fs : filesystem)
    (pack : string) (names : list string) (filename : string) :
  resolve fs pack filename = None ->
  ~ In filename (map fst (flat_map (content_entry json_loads fs pack) names)).
Proof.
  intros Hnone Hin. apply in_map_iff in Hin as ([k v] & <- & Hin).
  apply in_flat_map in Hin as (name & _ & Hin).
  unfold content_entry in Hin. cbn [fst] in Hnone.
  destruct (resolve fs pack name) as [n|] eqn:E; [|destruct Hin].
  destruct Hin as [[= <- <-]|[]]. congruence.
Qed.

(** C6.  When none of the five required artifacts exists, the run
    returns with overall status [INVALID], and the file-structure result
    has an entry for each of the five, in order, all with
    [exists == False]. *)
Theorem all_artifacts_absent (json_loads : string -> exc unit)
    (fs : filesystem) (pack now : string) :
  (forall f, In f (map fst (required_files (__init__ pack))) ->
             resolve fs pack f = None) ->
  exists r,
    validate_all json_loads fs (__init__ pack) now = inr r
    /\ overall_status r = "INVALID"
    /\ map fst (file_structure r)
       = [ "persona.md"; "relationship_dynamics.md"; "technical_domains.md";
           "stylistic_voice.md"; "runtime_observations.jsonl" ]
    /\ Forall (fun item => exists_ (snd item) = false) (file_structure r).
Proof.
  intros Habsent. eexists. split; [apply validate_all_init|].
  unfold report_of.
  cbn [overall_status file_structure memory_pack_path required_files __init__].
  repeat split.
  - cbn [map fst forallb]. unfold structure_ok at 1.
    rewrite Habsent by (cbn; tauto). reflexivity.
  - apply List.Forall_forall. intros item Hin.
    apply in_map_iff in Hin as (src & <- & Hsrc).
    unfold file_entry, file_result_of. cbn [snd].
    rewrite Habsent; [reflexivity|]. now apply in_map.
Qed.

Lemma all_artifacts_absent_witness :
  (forall f, In f (map fst (required_files (__init__ Fixtures.pack))) ->
             resolve Fixtures.empty_fs Fixtures.pack f = None)
  /\ exists r,
    validate_all PyJson.loads Fixtures.empty_fs (__init__ Fixtures.pack) Fixtures.now
    = inr r
    /\ overall_status r = "INVALID"
    /\ map fst (file_structure r)
       = [ "persona.md"; "relationship_dynamics.md"; "technical_domains.md";
           "stylistic_voice.md"; "runtime_observations.jsonl" ]
    /\ Forall (fun item => exists_ (snd item) = false) (file_structure r).
Proof.
  assert (Habsent : forall f,
    In f (map fst (required_files (__init__ Fixtures.pack))) ->
    resolve Fixtures.empty_fs Fixtures.pack f = None).
  { intros f Hf. vm_compute. reflexivity. }
  split; [exact Habsent|].
  exact (all_artifacts_absent PyJson.loads Fixtures.empty_fs Fixtures.pack
           Fixtures.now Habsent).
Defined.

(** C10.  A required artifact that does not exist has no entry in the
    content-validation mapping; its file-structure entry records
    [exists == False] and size 0; and the recommendations still hold the
    under-100-bytes note for it. *)
Theorem missing_artifact_still_recommended (json_loads : string -> exc unit)
    (fs : filesystem) (pack now filename : string) :
  In filename (map fst (required_files (__init__ pack))) ->
  resolve fs pack filename = None ->
  exists r,
    validate_all json_loads fs (__init__ pack) now = inr r
    /\ ~ In filename (map fst (content_validation r))
    /\ (exists descr,
           In (filename,
               {| exists_ := false; readable := false; size_bytes := 0;
                  description := descr; file_error := None |})
              (file_structure r))
    /\ In ("Consider expanding " +:+ filename +:+ " - currently very brief")
          (recommendations r).
Proof.
  intros Hreq Hnone. eexists. split; [apply validate_all_init|].
  unfold report_of.
  cbn [content_validation file_structure recommendations memory_pack_path].
  apply in_map_iff in Hreq as ([f descr] & Hf & Hitem). cbn [fst] in Hf. subst f.
  assert (Hentry :
    In (filename,
        {| exists_ := false; readable := false; size_bytes := 0;
           description := descr; file_error := None |})
       (map (file_entry fs pack) (required_files (__init__ pack)))).
  { apply in_map_iff. exists (filename, descr). split; [|assumption].
    unfold file_entry, file_result_of. cbn [fst snd]. now rewrite Hnone. }
  split; [|split].
  - now apply content_entry_absent.
  - now exists descr.
  - rewrite recommendations_fold. unfold spec_recommendations.
    apply in_or_app. left.
    change ("Consider expanding " +:+ filename +:+ " - currently very brief")
      with ((fun item : string * FileResult =>
               "Consider expanding " +:+ fst item +:+ " - currently very brief")
              (filename,
               {| exists_ := false; readable := false; size_bytes := 0;
                  description := descr; file_error := None |})).
    apply in_map. apply filter_In. split; [assumption|reflexivity].
Qed.

Lemma missing_artifact_still_recommended_witness :
  In "stylistic_voice.md" (map fst (required_files (__init__ Fixtures.pack)))
  /\ resolve Fixtures.empty_fs Fixtures.pack "stylistic_voice.md" = None
  /\ exists r,
    validate_all PyJson.loads Fixtures.empty_fs (__init__ Fixtures.pack) Fixtures.now
    = inr r
    /\ ~ In "stylistic_voice.md" (map fst (content_validation r))
    /\ (exists descr,
           In ("stylistic_voice.md",
               {| exists_ := false; readable := false; size_bytes := 0;
                  description := descr; file_error := None |})
              (file_structure r))
    /\ In "Consider expanding stylistic_voice.md - currently very brief"
          (recommendations r).
Proof.
  assert (Hreq : In "stylistic_voice.md"
                   (map fst (required_files (__init__ Fixtures.pack))))
    by (cbn; tauto).
  assert (Hnone : resolve Fixtures.empty_fs Fixtures.pack "stylistic_voice.md" = None)
    by (vm_compute; reflexivity).
  split; [exact Hreq|]. split; [exact Hnone|].
  exact (missing_artifact_still_recommended PyJson.loads Fixtures.empty_fs
           Fixtures.pack Fixtures.now "stylistic_voice.md" Hreq Hnone).
Defined.

(** ** Event logs *)

Lemma filter_length_bound {A} (p : A -> bool) (l : list A) :
  (List.length (List.filter p l) <= List.length l)%nat.
Proof.
  induction l as [|x l IH]; cbn; [lia|]. destruct (p x); cbn; lia.
Qed.

Lemma filter_length_strict {A} (p : A -> bool) (l : list A) (x : A) :
  In x l -> p x = false ->
  (List.length (List.filter p l) < List.length l)%nat.
Proof.
  induction l as [|y l IH]; cbn; [tauto|]. intros [->|Hin] Hx.
  - rewrite Hx. pose proof (filter_length_bound p l). lia.
  - specialize (IH Hin Hx). destruct (p y); cbn; lia.
Qed.

Lemma filter_length_full {A} (p : A -> bool) (l : list A) :
  List.length (List.filter p l) = List.length l -> forallb p l = true.
Proof.
  induction l as [|y l IH]; cbn; [reflexivity|].
  destruct (p y) eqn:E; cbn.
  - intros H. apply IH. lia.
  - pose proof (filter_length_bound p l). lia.
Qed.

Section EventLog.

Variable json_loads : string -> exc unit.

(** The loop, when it returns: the counter grew by the number of
    well-formed records, one warning was appended per malformed record,
    and nothing else changed. *)
Lemma jsonl_loop_inr (lines : list string) :
  forall (i : Z) (v : Validation) (c : Z) (v' : Validation) (c' : Z),
    jsonl_loop json_loads lines i v c = inr (v', c') ->
    c' = c + PyStr.len (List.filter (well_formed_record json_loads) lines)
    /\ valid v' = valid v /\ metrics v' = metrics v /\ error v' = error v
    /\ forall w0, warnings v = Some w0 ->
         exists ws, warnings v' = Some (w0 ++ ws)
           /\ PyStr.len ws
              = PyStr.len (List.filter (malformed_record json_loads) lines).
Proof.
  unfold PyStr.len.
  induction lines as [|line lines IH]; intros i v c v' c' Hrun;
    cbn [jsonl_loop] in Hrun.
  - injection Hrun as <- <-. cbn. repeat split; [lia|].
    intros w0 Hw. exists []. now rewrite app_nil_r.
  - cbn [List.filter]. unfold well_formed_record at 1, malformed_record at 1, malformed.
    destruct (blank line); cbn [negb andb].
    + now apply IH in Hrun.
    + destruct (json_loads line) as [[e|e]|[]]; cbn [negb]; [| discriminate |].
      * set (msg := "Invalid JSON on line " +:+ PyStr.str_of_int (i + 1)
                      +:+ ": " +:+ e) in Hrun.
        apply IH in Hrun as (Hc & Hv & Hm & He & Hw).
        cbn [valid metrics error append_warning] in *. repeat split; try assumption.
        intros w0 Hw0. destruct (Hw (w0 ++ [msg])) as (ws & Hws & Hlen).
        { cbn. now rewrite Hw0. }
        exists (msg :: ws). split.
        -- rewrite Hws, <- app_assoc. reflexivity.
        -- cbn [List.length]. lia.
      * apply IH in Hrun as (Hc & Hrest). split; [|exact Hrest].
        cbn [List.length]. lia.
Qed.

(** The loop returns unless the decoder raises something other than
    [JSONDecodeError] on a non-blank line. *)
Lemma jsonl_loop_returns (lines : list string) :
  (forall line m, In line lines -> blank line = false ->
                  json_loads line <> inl (Exception m)) ->
  forall (i : Z) (v : Validation) (c : Z),
    exists r, jsonl_loop json_loads lines i v c = inr r.
Proof.
  induction lines as [|line lines IH]; intros Hexc i v c; cbn [jsonl_loop].
  - now eexists.
  - assert (Hrest : forall l m, In l lines -> blank l = false ->
                                json_loads l <> inl (Exception m)).
    { intros l m Hin. apply Hexc. now right. }
    destruct (blank line) eqn:Hb; [now apply IH|].
    destruct (json_loads line) as [[e|e]|[]] eqn:Hl; try now apply IH.
    exfalso. eapply Hexc; [now left | exact Hb | exact Hl].
Qed.

(** [_validate_jsonl_structure], when it returns. *)
Lemma jsonl_structure_inr (filename content : string) (v : Validation) :
  _validate_jsonl_structure json_loads filename content = inr v ->
  let lines := PyStr.split PyStr.LF (PyStr.strip content) in
  let good := PyStr.len (List.filter (well_formed_record json_loads) lines) in
  metrics v = Some [ ("total_lines", PyStr.len lines);
                     ("valid_json_lines", good);
                     ("invalid_lines", PyStr.len lines - good) ]
  /\ valid v = (PyStr.len lines =? good)
  /\ error v = (if PyStr.len lines =? good then None
                else Some (PyStr.str_of_int (PyStr.len lines - good)
                           +:+ " invalid JSON lines"))
  /\ exists ws, warnings v = Some ws
       /\ PyStr.len ws
          = PyStr.len (List.filter (malformed_record json_loads) lines).
Proof.
  unfold _validate_jsonl_structure. cbn [bind ret Monad_exc exc_bind].
  set (lines := PyStr.split PyStr.LF (PyStr.strip content)).
  destruct (jsonl_loop json_loads lines 0 fresh_validation 0) as [e|[v1 c1]] eqn:Hloop;
    [discriminate|].
  apply jsonl_loop_inr in Hloop as (Hc & Hv & Hm & He & Hw).
  destruct (Hw [] eq_refl) as (ws & Hws & Hlen). cbn [app] in Hws.
  rewrite Z.add_0_l in Hc. subst c1.
  set (good := PyStr.len (List.filter (well_formed_record json_loads) lines)) in *.
  assert (Hle : good <= PyStr.len lines).
  { unfold good, PyStr.len.
    pose proof (filter_length_bound (well_formed_record json_loads) lines). lia. }
  clearbody good. remember (PyStr.len lines) as n eqn:Hn. clear Hn.
  remember (PyStr.len (List.filter (malformed_record json_loads) lines)) as bad.
  cbn [exc_bind]. unfold get_metric, set_metric. cbn [metrics]. rewrite Hm.
  cbn [fresh_validation metrics]. cbn -[Z.sub Z.ltb PyStr.str_of_int String.append].
  destruct (Z.ltb_spec 0 (n - good)) as [Hlt|Hge];
    intros [= <-]; cbn [metrics valid error warnings set_error set_valid].
  - destruct (Z.eqb_spec n good) as [Heq|Hne]; [lia|].
    repeat split. now exists ws.
  - destruct (Z.eqb_spec n good) as [Heq|Hne]; [|lia].
    rewrite Hv, He. repeat split. now exists ws.
Qed.

(** The warnings the loop appends, in order. *)
Lemma jsonl_loop_warnings (lines : list string) :
  forall (i : Z) (v : Validation) (c : Z) (v' : Validation) (c' : Z) (w0 : list string),
    jsonl_loop json_loads lines i v c = inr (v', c') ->
    warnings v = Some w0 ->
    warnings v'
    = Some (w0 ++ flat_map (line_warning json_loads) (numbered (i + 1) lines)).
Proof.
  induction lines as [|line lines IH]; intros i v c v' c' w0 Hrun Hw;
    cbn [jsonl_loop numbered flat_map] in *.
  - injection Hrun as <- <-. now rewrite app_nil_r.
  - unfold line_warning at 1.
    destruct (blank line); [now apply (IH _ _ _ _ _ _ Hrun)|].
    destruct (json_loads line) as [[e|e]|[]]; [| discriminate |].
    + rewrite (IH _ _ _ _ _ (w0 ++ ["Invalid JSON on line "
                                     +:+ PyStr.str_of_int (i + 1) +:+ ": " +:+ e])
                 Hrun).
      * now rewrite <- app_assoc.
      * cbn. now rewrite Hw.
    + now apply (IH _ _ _ _ _ _ Hrun).
Qed.

(** The warnings of a result of [_validate_jsonl_structure]. *)
Lemma jsonl_structure_warnings (filename content : string) (v : Validation) :
  _validate_jsonl_structure json_loads filename content = inr v ->
  warnings v
  = Some (flat_map (line_warning json_loads)
            (numbered 1 (PyStr.split PyStr.LF (PyStr.strip content)))).
Proof.
  unfold _validate_jsonl_structure. cbn [bind ret Monad_exc exc_bind].
  destruct (jsonl_loop json_loads _ 0 fresh_validation 0) as [e|[v1 c1]] eqn:Hloop;
    cbn [exc_bind]; [discriminate|].
  pose proof (jsonl_loop_warnings _ _ _ _ _ _ [] Hloop eq_refl) as Hw.
  cbn [app] in Hw. change (0 + 1) with 1 in Hw.
  intros [= <-].
  match goal with
  | |- warnings (if ?b then _ else _) = _ => destruct b
  end; cbn [warnings set_error set_valid set_metric]; exact Hw.
Qed.

End EventLog.

Section EventLogCounts.

Variable json_loads : string -> exc unit.

Lemma records_partition (lines : list string) :
  List.filter (malformed_record json_loads) lines
  = List.filter (malformed json_loads) (nonblank lines)
  /\ PyStr.len (List.filter (well_formed_record json_loads) lines)
     = PyStr.len (nonblank lines)
       - PyStr.len (List.filter (malformed json_loads) (nonblank lines)).
Proof.
  unfold PyStr.len, nonblank, malformed_record, well_formed_record.
  induction lines as [|line lines [IH1 IH2]]; cbn [List.filter]; [now split|].
  destruct (blank line); cbn [negb andb List.filter]; [now split|].
  destruct (malformed json_loads line); cbn [negb List.length].
  - split; [now f_equal | lia].
  - split; [assumption | lia].
Qed.

(** X8.  What holds of the counts in general.  With N the number of non-blank
    lines and M the number of those that do not parse, the valid count is
    N - M and one warning is recorded per malformed line; but the artifact
    is valid only if, besides M = 0, no line of the stripped content is
    blank. *)
Lemma jsonl_structure_counts (filename content : string) :
  let lines := PyStr.split PyStr.LF (PyStr.strip content) in
  let N := PyStr.len (nonblank lines) in
  let M := PyStr.len (List.filter (malformed json_loads) (nonblank lines)) in
  (forall line m, In line lines -> blank line = false ->
                  json_loads line <> inl (Exception m)) ->
  exists v ws,
    _validate_jsonl_structure json_loads filename content = inr v
    /\ get_metric "valid_json_lines" v = N - M
    /\ get_metric "invalid_lines" v = PyStr.len lines - (N - M)
    /\ warnings v = Some ws /\ PyStr.len ws = M
    /\ valid v = (PyStr.len lines =? N - M).
Proof.
  cbn zeta. intros Hexc.
  destruct (jsonl_loop_returns json_loads _ Hexc 0 fresh_validation 0) as [r Hloop].
  destruct (_validate_jsonl_structure json_loads filename content) as [e|v] eqn:Hrun.
  { exfalso. revert Hrun. unfold _validate_jsonl_structure.
    cbn [bind ret Monad_exc exc_bind]. rewrite Hloop. now destruct r. }
  pose proof (jsonl_structure_inr json_loads filename content v Hrun)
    as (Hm & Hv & _ & ws & Hws & Hlen).
  cbn zeta in *.
  destruct (records_partition (PyStr.split PyStr.LF (PyStr.strip content)))
    as [Hbad Hgood].
  exists v, ws. rewrite Hgood in Hm, Hv. rewrite Hbad in Hlen.
  unfold get_metric. rewrite Hm. now cbn.
Qed.

End EventLogCounts.

(** ** Whitespace-only content *)

Lemma rstrip_empty (s : string) :
  PyStr.rstrip s = EmptyString -> all_space s = true.
Proof.
  induction s as [|c s IH]; cbn; [reflexivity|].
  destruct (PyStr.rstrip s); [|discriminate].
  destruct (PyStr.isspace c); [|discriminate]. intros _. now apply IH.
Qed.

Lemma lstrip_all_space (s : string) :
  all_space s = true -> PyStr.lstrip s = EmptyString.
Proof.
  induction s as [|c s IH]; cbn; [reflexivity|].
  destruct (PyStr.isspace c); [exact IH | discriminate].
Qed.

Lemma all_space_lstrip (s : string) :
  all_space (PyStr.lstrip s) = true -> all_space s = true.
Proof.
  induction s as [|c s IH]; cbn; [reflexivity|].
  destruct (PyStr.isspace c) eqn:E; [exact IH|].
  cbn. now rewrite E.
Qed.

Lemma blank_all_space (line : string) :
  blank line = true -> all_space line = true.
Proof.
  unfold blank, PyStr.strip. intros H.
  apply all_space_lstrip, rstrip_empty.
  destruct (PyStr.rstrip (PyStr.lstrip line)); [reflexivity | discriminate].
Qed.

Lemma split_all_space (s : string) :
  forallb all_space (PyStr.split PyStr.LF s) = true -> all_space s = true.
Proof.
  induction s as [|c s IH]; cbn [PyStr.split all_space]; [reflexivity|].
  destruct (Ascii.eqb_spec c PyStr.LF) as [->|Hne].
  - cbn. exact IH.
  - destruct (PyStr.split PyStr.LF s) as [|x xs]; cbn.
    + rewrite andb_true_r. intros H. apply andb_prop in H as [-> _].
      now apply IH.
    + intros H. apply andb_prop in H as [H1 H2]. apply andb_prop in H1 as [-> H1].
      apply IH. cbn. now rewrite H1, H2.
Qed.

Lemma nonblank_nil (lines : list string) :
  nonblank lines = [] -> forallb all_space lines = true.
Proof.
  unfold nonblank. induction lines as [|l lines IH]; cbn; [reflexivity|].
  destruct (blank l) eqn:E; cbn; [|discriminate].
  intros H. now rewrite (blank_all_space l E), IH.
Qed.

Lemma strip_blank_content (content : string) :
  nonblank (file_lines content) = [] -> PyStr.strip content = EmptyString.
Proof.
  intros H. unfold PyStr.strip.
  now rewrite (lstrip_all_space content (split_all_space _ (nonblank_nil _ H))).
Qed.

(** C3, as the code has it.  For every event-log content with zero
    non-blank lines, the empty file included,
    [_validate_jsonl_structure] returns [valid == False] with the error
    [1 invalid JSON lines]: the single empty string that
    [''.split('\n')] yields is skipped by the loop and then counted by
    [len(lines) - valid_json_count]. *)
Theorem blank_log_is_rejected (json_loads : string -> exc unit)
    (filename content : string) :
  nonblank (file_lines content) = [] ->
  _validate_jsonl_structure json_loads filename content
  = inr {| valid := false;
           warnings := Some [];
           metrics := Some [ ("total_lines", 1); ("valid_json_lines", 0);
                             ("invalid_lines", 1) ];
           error := Some "1 invalid JSON lines" |}.
Proof.
  intros H. unfold _validate_jsonl_structure.
  rewrite (strip_blank_content content H). reflexivity.
Qed.

Lemma blank_log_is_rejected_witness :
  nonblank (file_lines EmptyString) = []
  /\ _validate_jsonl_structure PyJson.loads "runtime_observations.jsonl" EmptyString
     = inr {| valid := false;
              warnings := Some [];
              metrics := Some [ ("total_lines", 1); ("valid_json_lines", 0);
                                ("invalid_lines", 1) ];
              error := Some "1 invalid JSON lines" |}.
Proof.
  split; [reflexivity|].
  apply (blank_log_is_rejected PyJson.loads "runtime_observations.jsonl" EmptyString).
  reflexivity.
Defined.

(** C2 at a log of two well-formed records around an empty line: there
    are N = 2 non-blank lines and M = 0 malformed ones, the valid count is
    N - M = 2 and no invalid-line entry is recorded, yet the empty line is
    counted in [invalid_lines] and the artifact is reported invalid. *)
Theorem blank_line_counted_invalid :
  let content := Fixtures.log_with_gap in
  PyStr.len (nonblank (file_lines content)) = 2
  /\ PyStr.len (List.filter (malformed PyJson.loads) (nonblank (file_lines content))) = 0
  /\ _validate_jsonl_structure PyJson.loads "runtime_observations.jsonl" content
     = inr {| valid := false;
              warnings := Some [];
              metrics := Some [ ("total_lines", 3); ("valid_json_lines", 2);
                                ("invalid_lines", 1) ];
              error := Some "1 invalid JSON lines" |}.
Proof. vm_compute. repeat split. Qed.

(** C4 at a log with one malformed record, an empty line and one
    well-formed record, inside the otherwise valid pack: the artifact is
    invalid; after the malformed line is replaced by a record no malformed
    line is left, yet the artifact is still invalid and the overall status
    is still [INVALID]. *)
Theorem repaired_log_still_invalid :
  let validate log :=
    _validate_jsonl_structure PyJson.loads "runtime_observations.jsonl" log in
  let status log :=
    match validate_all PyJson.loads (Fixtures.log_fs log)
            (__init__ Fixtures.pack) Fixtures.now with
    | inr r => overall_status r
    | inl _ => "raised"
    end in
  List.filter (malformed_record PyJson.loads) (file_lines Fixtures.log_broken)
  = ["{bad"]
  /\ (exists v, validate Fixtures.log_broken = inr v /\ valid v = false)
  /\ List.filter (malformed_record PyJson.loads) (file_lines Fixtures.log_repaired)
     = []
  /\ (exists v, validate Fixtures.log_repaired = inr v /\ valid v = false)
  /\ status Fixtures.log_broken = "INVALID"
  /\ status Fixtures.log_repaired = "INVALID".
Proof.
  vm_compute. repeat split; eexists; split; reflexivity.
Qed.

(** ** Failures are data *)

Section Capture.

Variable json_loads : string -> exc unit.

Lemma content_entry_present (fs : filesystem) (pack : string)
    (names : list string) (filename : string) (n : node) :
  In filename names ->
  resolve fs pack filename = Some n ->
  In (filename, validation_of json_loads filename n)
     (flat_map (content_entry json_loads fs pack) names).
Proof.
  intros Hin Hres. apply in_flat_map. exists filename. split; [assumption|].
  unfold content_entry. rewrite Hres. now left.
Qed.

Lemma validation_of_read_failure (filename : string) (n : node) (e : exception) :
  read_text n = inl e ->
  validation_of json_loads filename n = failed_validation (str_of_exception e).
Proof.
  intros Hread. unfold validation_of, read_and_validate.
  cbn [bind Monad_exc exc_bind]. now rewrite Hread.
Qed.

(** A required structured document that can be read is always valid:
    the four [.md] names go to the structured-document rules. *)
Lemma readable_document_valid (f : string) (n : node) (content : string) :
  In f ["persona.md"; "relationship_dynamics.md"; "technical_domains.md";
        "stylistic_voice.md"] ->
  read_text n = inr content ->
  validation_of json_loads f n = _validate_markdown_structure f content.
Proof.
  intros Hf Hread. unfold validation_of, read_and_validate.
  cbn [bind ret Monad_exc exc_bind]. rewrite Hread. cbn [exc_bind].
  destruct Hf as [<-|[<-|[<-|[<-|[]]]]]; reflexivity.
Qed.

Lemma log_validation (n : node) (content : string) :
  read_text n = inr content ->
  validation_of json_loads "runtime_observations.jsonl" n
  = match _validate_jsonl_structure json_loads "runtime_observations.jsonl" content with
    | inr v => v
    | inl e => failed_validation (str_of_exception e)
    end.
Proof.
  intros Hread. unfold validation_of, read_and_validate.
  cbn [bind ret Monad_exc exc_bind]. rewrite Hread. reflexivity.
Qed.

Lemma numbered_In (lines : list string) :
  forall (first k : Z) (line : string),
    In (k, line) (numbered first lines) -> In line lines.
Proof.
  induction lines as [|l lines IH]; intros first k line; cbn [numbered]; [intros []|].
  intros [[= _ <-]|Hin]; [now left | right; now apply (IH _ _ _ Hin)].
Qed.


End Capture.



(** ** Running twice *)

Lemma flat_map_agree {A B} (f g : A -> list B) (l : list A) :
  (forall a, In a l -> f a = g a) -> flat_map f l = flat_map g l.
Proof.
  induction l as [|a l IH]; intros H; cbn; [reflexivity|].
  rewrite (H a) by now left. f_equal. apply IH. intros b Hb. apply H. now right.
Qed.

Lemma forallb_agree {A} (f g : A -> bool) (l : list A) :
  (forall a, In a l -> f a = g a) -> forallb f l = forallb g l.
Proof.
  induction l as [|a l IH]; intros H; cbn; [reflexivity|].
  rewrite (H a) by now left. f_equal. apply IH. intros b Hb. apply H. now right.
Qed.

Section Rerun.

Variable json_loads : string -> exc unit.
Variable json_dump : Results -> string.

(** The report depends on the file system only through the required
    artifacts, and on the clock only in its [timestamp]. *)
Lemma report_of_agree (fs1 fs2 : filesystem) (self : MemoryPackValidator)
    (now1 now2 : string) :
  (forall f, In f (map fst (required_files self)) ->
             resolve fs1 (memory_pack_path self) f
             = resolve fs2 (memory_pack_path self) f) ->
  report_of json_loads fs2 self now2
  = set_timestamp now2 (report_of json_loads fs1 self now1).
Proof.
  intros Hsame. unfold report_of, set_timestamp.
  cbn [timestamp pack_path overall_status file_structure content_validation
       cross_references recommendations].
  assert (Hs : map (file_entry fs2 (memory_pack_path self)) (required_files self)
               = map (file_entry fs1 (memory_pack_path self)) (required_files self)).
  { apply map_ext_in. intros item Hin. unfold file_entry, file_result_of.
    now rewrite Hsame by now apply in_map. }
  assert (Hc : flat_map (content_entry json_loads fs2 (memory_pack_path self))
                 (map fst (required_files self))
               = flat_map (content_entry json_loads fs1 (memory_pack_path self))
                   (map fst (required_files self))).
  { apply flat_map_agree. intros f Hin. unfold content_entry.
    now rewrite Hsame. }
  assert (Ho : forallb (structure_ok fs2 (memory_pack_path self))
                 (map fst (required_files self))
               = forallb (structure_ok fs1 (memory_pack_path self))
                   (map fst (required_files self))).
  { apply forallb_agree. intros f Hin. unfold structure_ok. now rewrite Hsame. }
  now rewrite Hs, Hc, Ho.
Qed.

(** [main] leaves every entry of the pack other than the report file as
    it was. *)
Lemma main_keeps_artifacts (argv : list string) (now : string)
    (open_w : exc unit) (fs : filesystem) (f : string) :
  f <> "validation_results.json" ->
  resolve (snd (main json_loads json_dump argv now open_w fs)) (nth 1 argv "") f
  = resolve fs (nth 1 argv "") f.
Proof.
  intros Hf. unfold main.
  destruct (negb (PyStr.len argv =? 2)); [reflexivity|].
  destruct (fs !! nth 1 argv "") as [d|] eqn:Hd; [|reflexivity].
  destruct (validate_all json_loads fs (__init__ (nth 1 argv "")) now);
    [reflexivity|].
  destruct open_w; [reflexivity|]. cbn [snd]. unfold resolve.
  rewrite lookup_insert_eq, Hd. now rewrite lookup_insert_ne.
Qed.

(** C5.  Two runs over file systems that agree on the required artifacts
    both return, and their reports agree on the file-structure result,
    the content-validation result and the overall status; they differ at
    most in the timestamp.  In particular a run over the pack as [main]
    left it, report file written, repeats the report of the first run. *)
Theorem rerun_repeats_report :
  (forall (fs1 fs2 : filesystem) (pack now1 now2 : string),
      (forall f, In f (map fst (required_files (__init__ pack))) ->
                 resolve fs1 pack f = resolve fs2 pack f) ->
      exists r1 r2,
        validate_all json_loads fs1 (__init__ pack) now1 = inr r1
        /\ validate_all json_loads fs2 (__init__ pack) now2 = inr r2
        /\ file_structure r2 = file_structure r1
        /\ content_validation r2 = content_validation r1
        /\ overall_status r2 = overall_status r1
        /\ r2 = set_timestamp now2 r1)
  /\ (forall (argv : list string) (now1 now2 : string) (open_w : exc unit)
             (fs : filesystem),
         let pack := nth 1 argv "" in
         let fs' := snd (main json_loads json_dump argv now1 open_w fs) in
         exists r1 r2,
           validate_all json_loads fs (__init__ pack) now1 = inr r1
           /\ validate_all json_loads fs' (__init__ pack) now2 = inr r2
           /\ file_structure r2 = file_structure r1
           /\ content_validation r2 = content_validation r1
           /\ overall_status r2 = overall_status r1
           /\ r2 = set_timestamp now2 r1).
Proof.
  assert (Hgen : forall (fs1 fs2 : filesystem) (pack now1 now2 : string),
      (forall f, In f (map fst (required_files (__init__ pack))) ->
                 resolve fs1 pack f = resolve fs2 pack f) ->
      exists r1 r2,
        validate_all json_loads fs1 (__init__ pack) now1 = inr r1
        /\ validate_all json_loads fs2 (__init__ pack) now2 = inr r2
        /\ file_structure r2 = file_structure r1
        /\ content_validation r2 = content_validation r1
        /\ overall_status r2 = overall_status r1
        /\ r2 = set_timestamp now2 r1).
  { intros fs1 fs2 pack now1 now2 Hsame.
    exists (report_of json_loads fs1 (__init__ pack) now1),
           (report_of json_loads fs2 (__init__ pack) now2).
    rewrite !validate_all_init.
    rewrite (report_of_agree fs1 fs2 (__init__ pack) now1 now2) by exact Hsame.
    now repeat split. }
  split; [exact Hgen|].
  intros argv now1 now2 open_w fs pack fs'. apply Hgen.
  intros f Hf. symmetry. apply main_keeps_artifacts.
  cbn in Hf. intuition (subst; discriminate).
Qed.

End Rerun.

Lemma rerun_repeats_report_witness :
  let fs := Fixtures.valid_fs in
  let fs' :=
    snd (main PyJson.loads (fun _ => "{}")
           ["memory_pack_validator.py"; Fixtures.pack]
           Fixtures.now (inr tt) fs) in
  (forall f, In f (map fst (required_files (__init__ Fixtures.pack))) ->
             resolve fs Fixtures.pack f = resolve fs' Fixtures.pack f)
  /\ resolve fs Fixtures.pack "validation_results.json" = None
  /\ resolve fs' Fixtures.pack "validation_results.json" <> None
  /\ exists r1 r2,
       validate_all PyJson.loads fs (__init__ Fixtures.pack) Fixtures.now = inr r1
       /\ validate_all PyJson.loads fs' (__init__ Fixtures.pack) "2025-06-30T12:00:00"
          = inr r2
       /\ file_structure r2 = file_structure r1
       /\ content_validation r2 = content_validation r1
       /\ overall_status r2 = overall_status r1
       /\ r2 = set_timestamp "2025-06-30T12:00:00" r1.
Proof.
  cbn zeta.
  assert (Hsame : forall f,
    In f (map fst (required_files (__init__ Fixtures.pack))) ->
    resolve Fixtures.valid_fs Fixtures.pack f
    = resolve
        (snd (main PyJson.loads (fun _ => "{}")
                ["memory_pack_validator.py"; Fixtures.pack]
                Fixtures.now (inr tt) Fixtures.valid_fs))
        Fixtures.pack f).
  { intros f Hf. cbn in Hf.
    destruct Hf as [<-|[<-|[<-|[<-|[<-|[]]]]]]; vm_compute; reflexivity. }
  split; [exact Hsame|].
  split; [vm_compute; reflexivity|].
  split; [vm_compute; discriminate|].
  exact (proj1 (rerun_repeats_report PyJson.loads (fun _ => "{}"))
           Fixtures.valid_fs _ Fixtures.pack Fixtures.now "2025-06-30T12:00:00"
           Hsame).
Defined.

(** ** Overall status *)

Lemma readable_entry_ok (fs : filesystem) (pack : string) (item : string * string) :
  exists_ (snd (file_entry fs pack item)) && readable (snd (file_entry fs pack item))
  && match file_error (snd (file_entry fs pack item)) with
     | None => true
     | Some _ => false
     end = true ->
  structure_ok fs pack (fst item) = true.
Proof.
  unfold file_entry, file_result_of, structure_ok. cbn [snd].
  destruct (resolve fs pack (fst item)) as [n|]; [|discriminate].
  destruct (is_file n) as [e|b]; cbn; [discriminate|].
  destruct (st_size n) as [e|size]; cbn; [|reflexivity].
  now rewrite andb_false_r.
Qed.

Lemma readable_entries_ok (fs : filesystem) (pack : string)
    (items : list (string * string)) :
  forallb
    (fun item =>
       exists_ (snd item) && readable (snd item)
       && match file_error (snd item) with None => true | Some _ => false end)
    (map (file_entry fs pack) items) = true ->
  forallb (structure_ok fs pack) (map fst items) = true.
Proof.
  induction items as [|item items IH]; cbn [map forallb]; [reflexivity|].
  intros H. apply andb_prop in H as [H1 H2].
  now rewrite (readable_entry_ok fs pack item H1), IH.
Qed.

(** C1, as the code has it.  Every run returns a report whose overall
    status is never [VALID_WITH_WARNINGS]; when every required artifact
    exists and is readable, its metadata read without error, and every
    per-artifact validation is valid, the status is [VALID], whatever the
    warnings lists hold. *)
Theorem warnings_leave_status_valid (json_loads : string -> exc unit)
    (fs : filesystem) (pack now : string) :
  exists r,
    validate_all json_loads fs (__init__ pack) now = inr r
    /\ overall_status r <> "VALID_WITH_WARNINGS"
    /\ (all_artifacts_readable r = true ->
        all_artifacts_valid r = true ->
        overall_status r = "VALID").
Proof.
  eexists. split; [apply validate_all_init|].
  unfold all_artifacts_readable, all_artifacts_valid, report_of.
  cbn [overall_status file_structure content_validation memory_pack_path].
  split.
  - destruct (_ && _); discriminate.
  - intros Hread Hvalid.
    rewrite (readable_entries_ok _ _ _ Hread), Hvalid. reflexivity.
Qed.

Lemma warnings_leave_status_valid_witness :
  exists r,
    validate_all PyJson.loads Fixtures.brief_fs (__init__ Fixtures.pack) Fixtures.now
    = inr r
    /\ all_artifacts_readable r = true
    /\ all_artifacts_valid r = true
    /\ some_artifact_warns r = true
    /\ overall_status r = "VALID".
Proof.
  destruct (warnings_leave_status_valid PyJson.loads Fixtures.brief_fs
              Fixtures.pack Fixtures.now) as (r & Hr & _ & Hstatus).
  exists r.
  assert (Hflags : all_artifacts_readable r = true
                   /\ all_artifacts_valid r = true
                   /\ some_artifact_warns r = true).
  { assert (Hrun : validate_all PyJson.loads Fixtures.brief_fs
                     (__init__ Fixtures.pack) Fixtures.now
                   = inr (report_of PyJson.loads Fixtures.brief_fs
                            (__init__ Fixtures.pack) Fixtures.now))
      by apply validate_all_init.
    rewrite Hr in Hrun. injection Hrun as ->. vm_compute. tauto. }
  destruct Hflags as (H1 & H2 & H3).
  repeat split; try assumption. now apply Hstatus.
Defined.

(** C1 refuted as stated: in the all-valid pack with a ten-word
    technical-domains document every artifact exists and is readable,
    every validation is valid and one warnings list is non-empty, yet the
    overall status is [VALID], not [VALID_WITH_WARNINGS]; the warning
    shows only as the single recommendation. *)
Lemma warnings_alone_yield_valid :
  exists r,
    validate_all PyJson.loads Fixtures.brief_fs (__init__ Fixtures.pack) Fixtures.now
    = inr r
    /\ PyStr.len (PyStr.split_whitespace Fixtures.technical_domains_10_words) = 10
    /\ all_artifacts_readable r = true
    /\ map fst (content_validation r) = map fst (required_files (__init__ Fixtures.pack))
    /\ all_artifacts_valid r = true
    /\ some_artifact_warns r = true
    /\ overall_status r = "VALID"
    /\ overall_status r <> "VALID_WITH_WARNINGS"
    /\ recommendations r
       = ["technical_domains.md: Technical domains seem underdeveloped"].
Proof.
  eexists. split; [vm_compute; reflexivity|].
  vm_compute. repeat split. discriminate.
Qed.

(** ** The scenarios of the specification *)

(** The all-valid pack: status [VALID], no recommendation. *)
Example valid_pack_scenario :
  exists r,
    validate_all PyJson.loads Fixtures.valid_fs (__init__ Fixtures.pack) Fixtures.now
    = inr r
    /\ overall_status r = "VALID" /\ recommendations r = [].
Proof. eexists. split; [vm_compute; reflexivity|]. now cbn. Qed.

(** An event log whose only line is malformed: invalid, with one warning
    that cites line 1. *)
Example bad_line_scenario :
  _validate_jsonl_structure PyJson.loads "runtime_observations.jsonl"
    ("{" +:+ Fixtures.jstr "bad" +:+ ":}")
  = inr {| valid := false;
           warnings :=
             Some ["Invalid JSON on line 1: Expecting value: line 1 column 8 (char 7)"];
           metrics := Some [ ("total_lines", 1); ("valid_json_lines", 0);
                             ("invalid_lines", 1) ];
           error := Some "1 invalid JSON lines" |}.
Proof. vm_compute. reflexivity. Qed.

(** ** Appending a line to an event log *)

Lemma all_space_rstrip (s : string) :
  all_space (PyStr.rstrip s) = all_space s.
Proof.
  induction s as [|c s IH]; cbn [PyStr.rstrip all_space]; [reflexivity|].
  destruct (PyStr.rstrip s) as [|c' r] eqn:E.
  - rewrite <- IH. destruct (PyStr.isspace c) eqn:Hc; cbn [all_space];
      [reflexivity | now rewrite Hc].
  - cbn [all_space] in *. now rewrite IH.
Qed.

Lemma all_space_blank (s : string) : blank s = all_space s.
Proof.
  destruct (all_space s) eqn:E.
  - unfold blank, PyStr.strip. now rewrite (lstrip_all_space s E).
  - destruct (blank s) eqn:B; [|reflexivity].
    apply blank_all_space in B. congruence.
Qed.

Lemma single_line_lstrip (s : string) :
  single_line s = true -> single_line (PyStr.lstrip s) = true.
Proof.
  induction s as [|c s IH]; cbn [PyStr.lstrip single_line]; [reflexivity|].
  intros H. destruct (PyStr.isspace c); [|exact H].
  apply andb_prop in H as [_ H]. now apply IH.
Qed.

Lemma single_line_rstrip (s : string) :
  single_line s = true -> single_line (PyStr.rstrip s) = true.
Proof.
  induction s as [|c s IH]; cbn [PyStr.rstrip single_line]; [reflexivity|].
  intros H. apply andb_prop in H as [Hc H]. specialize (IH H).
  destruct (PyStr.rstrip s) as [|c' r].
  - destruct (PyStr.isspace c); cbn [single_line]; [reflexivity|].
    now rewrite Hc.
  - cbn [single_line] in *. now rewrite Hc, IH.
Qed.

Lemma split_single_line (s : string) :
  single_line s = true -> PyStr.split PyStr.LF s = [s].
Proof.
  induction s as [|c s IH]; cbn [PyStr.split single_line]; [reflexivity|].
  intros H. apply andb_prop in H as [Hc H].
  destruct (Ascii.eqb c PyStr.LF); [discriminate|]. now rewrite (IH H).
Qed.

Lemma append_empty (t : string) : EmptyString +:+ t = t.
Proof. reflexivity. Qed.

Lemma append_String (c : ascii) (s t : string) :
  String c s +:+ t = String c (s +:+ t).
Proof. reflexivity. Qed.

Lemma split_not_nil (sep : ascii) (s : string) : PyStr.split sep s <> [].
Proof.
  destruct s as [|c s]; cbn [PyStr.split]; [discriminate|].
  destruct (Ascii.eqb c sep); [discriminate|].
  destruct (PyStr.split sep s); discriminate.
Qed.

Lemma split_append_line (s t : string) :
  PyStr.split PyStr.LF (s +:+ String PyStr.LF t)
  = PyStr.split PyStr.LF s ++ PyStr.split PyStr.LF t.
Proof.
  induction s as [|c s IH];
    rewrite ?append_empty, ?append_String; cbn [PyStr.split app].
  - now rewrite Ascii.eqb_refl.
  - rewrite IH. destruct (Ascii.eqb c PyStr.LF); [reflexivity|].
    pose proof (split_not_nil PyStr.LF s) as Hne.
    destruct (PyStr.split PyStr.LF s); [contradiction | reflexivity].
Qed.

Lemma lstrip_append (s t : string) :
  PyStr.lstrip (s +:+ t)
  = if all_space s then PyStr.lstrip t else PyStr.lstrip s +:+ t.
Proof.
  induction s as [|c s IH];
    rewrite ?append_empty, ?append_String; cbn [PyStr.lstrip all_space];
    [reflexivity|].
  destruct (PyStr.isspace c); [exact IH | now rewrite append_String].
Qed.

Lemma rstrip_append (s t : string) :
  all_space t = false ->
  PyStr.rstrip (s +:+ t) = s +:+ PyStr.rstrip t.
Proof.
  intros Ht. induction s as [|c s IH];
    rewrite ?append_empty, ?append_String; cbn [PyStr.rstrip];
    [reflexivity|].
  rewrite IH. destruct (s +:+ PyStr.rstrip t) as [|c' r] eqn:E; [|reflexivity].
  exfalso. destruct s; [|discriminate]. rewrite append_empty in E.
  rewrite <- all_space_rstrip, E in Ht. discriminate.
Qed.

(** The last line of the stripped content of a log that ends with a
    non-blank line: that line, trimmed on the right, or on both sides
    when nothing but whitespace comes before it. *)
Lemma appended_line_is_read (content line : string) :
  single_line line = true ->
  blank line = false ->
  exists trimmed,
    (trimmed = PyStr.rstrip line \/ trimmed = PyStr.strip line)
    /\ blank trimmed = false
    /\ In trimmed (PyStr.split PyStr.LF (PyStr.strip (append_line content line))).
Proof.
  intros Hsingle Hblank. rewrite all_space_blank in Hblank.
  unfold append_line, PyStr.strip. rewrite lstrip_append.
  destruct (all_space content) eqn:Hc.
  - exists (PyStr.strip line). split; [now right|].
    assert (Hl : PyStr.lstrip (String PyStr.LF line) = PyStr.lstrip line)
      by reflexivity.
    rewrite Hl. fold (PyStr.strip line). split.
    + rewrite all_space_blank. unfold PyStr.strip.
      rewrite all_space_rstrip. destruct (all_space (PyStr.lstrip line)) eqn:E;
        [|reflexivity].
      apply all_space_lstrip in E. congruence.
    + rewrite split_single_line; [now left|].
      unfold PyStr.strip. now apply single_line_rstrip, single_line_lstrip.
  - exists (PyStr.rstrip line). split; [now left|]. split.
    + now rewrite all_space_blank, all_space_rstrip.
    + rewrite rstrip_append by (cbn [all_space]; now rewrite Hblank, andb_false_r).
      assert (Hr : PyStr.rstrip (String PyStr.LF line)
                   = String PyStr.LF (PyStr.rstrip line)).
      { cbn [PyStr.rstrip]. destruct (PyStr.rstrip line) eqn:E; [|reflexivity].
        apply rstrip_empty in E. congruence. }
      rewrite Hr, split_append_line. apply in_or_app. right.
      rewrite split_single_line by now apply single_line_rstrip. now left.
Qed.

(** X11.  Whatever the log held, once a line feed and a non-blank line
    on whose trimmed text the decoder raises are appended to it, the
    validation, if it returns a result, returns an invalid one. *)
Lemma appended_malformed_line_invalid (json_loads : string -> exc unit)
    (filename content line : string) (v : Validation) :
  single_line line = true ->
  blank line = false ->
  malformed json_loads (PyStr.rstrip line) = true ->
  malformed json_loads (PyStr.strip line) = true ->
  _validate_jsonl_structure json_loads filename (append_line content line) = inr v ->
  valid v = false.
Proof.
  intros Hsingle Hblank Hr Hs Hrun.
  destruct (appended_line_is_read content line Hsingle Hblank)
    as (trimmed & Hwhich & Hnb & Hin).
  apply jsonl_structure_inr in Hrun as (_ & Hvalid & _). cbn zeta in Hvalid.
  rewrite Hvalid. apply Z.eqb_neq. unfold PyStr.len.
  pose proof (filter_length_strict (well_formed_record json_loads) _ trimmed Hin)
    as Hlt.
  assert (Hbad : well_formed_record json_loads trimmed = false).
  { unfold well_formed_record. rewrite Hnb.
    destruct Hwhich as [-> | ->]; now rewrite ?Hr, ?Hs. }
  specialize (Hlt Hbad). lia.
Qed.

(** The trimming matters: an empty log, invalid by the blank-line count,
    followed by the line [1] and a vertical tab, on which the decoder
    raises, is read as the single record [1] and is valid. *)
Example appended_line_trimmed :
  let line := "1" +:+ String (ascii_of_N 11) EmptyString in
  malformed PyJson.loads line = true
  /\ malformed PyJson.loads (PyStr.strip line) = false
  /\ exists v,
       _validate_jsonl_structure PyJson.loads "runtime_observations.jsonl"
         (append_line EmptyString line) = inr v
       /\ valid v = true.
Proof.
  cbn zeta. repeat split. eexists. split; [vm_compute; reflexivity|]. reflexivity.
Qed.

(** * Further properties of the validator *)

(** ** When a pack is valid *)

Lemma filter_all {A} (p : A -> bool) (l : list A) :
  forallb p l = true -> List.filter p l = l.
Proof.
  induction l as [|x l IH]; cbn; [reflexivity|].
  intros H. apply andb_prop in H as [-> H]. now rewrite IH.
Qed.

Section ValidLog.

Variable json_loads : string -> exc unit.

(** An event log is reported valid exactly when every line of its
    stripped content is a non-blank line that decodes. *)
Lemma jsonl_valid_iff (filename content : string) :
  (exists v, _validate_jsonl_structure json_loads filename content = inr v
             /\ valid v = true)
  <-> forallb (well_formed_record json_loads)
        (PyStr.split PyStr.LF (PyStr.strip content)) = true.
Proof.
  split.
  - intros (v & Hrun & Hvalid).
    apply jsonl_structure_inr in Hrun as (_ & Hv & _). cbn zeta in Hv.
    rewrite Hvalid in Hv. symmetry in Hv. apply Z.eqb_eq in Hv.
    apply filter_length_full. unfold PyStr.len in Hv. lia.
  - intros Hall.
    assert (Hexc : forall line m,
      In line (PyStr.split PyStr.LF (PyStr.strip content)) ->
      blank line = false -> json_loads line <> inl (Exception m)).
    { intros line m Hin _ Hraise.
      pose proof (proj1 (forallb_forall _ _) Hall line Hin) as Hw.
      unfold well_formed_record, malformed in Hw. rewrite Hraise in Hw.
      now rewrite andb_false_r in Hw. }
    destruct (jsonl_loop_returns json_loads _ Hexc 0 fresh_validation 0)
      as [loop Hloop].
    destruct (_validate_jsonl_structure json_loads filename content)
      as [e|v] eqn:Hrun.
    { exfalso. revert Hrun. unfold _validate_jsonl_structure.
      cbn [bind ret Monad_exc exc_bind]. rewrite Hloop. now destruct loop. }
    exists v. split; [reflexivity|].
    apply jsonl_structure_inr in Hrun as (_ & Hv & _). cbn zeta in Hv.
    rewrite Hv, (filter_all _ _ Hall). apply Z.eqb_refl.
Qed.

Lemma unreadable_invalid (f : string) (n : node) (e : exception) :
  read_text n = inl e -> valid (validation_of json_loads f n) = false.
Proof.
  intros H. now rewrite (validation_of_read_failure json_loads f n e H).
Qed.

Lemma markdown_valid (filename content : string) :
  valid (_validate_markdown_structure filename content) = true.
Proof.
  unfold _validate_markdown_structure.
  destruct (String.eqb filename "persona.md").
  - match goal with
    | |- valid (fold_left _ ?l ?v) = true =>
        assert (Hw : exists ws, warnings v = Some ws)
          by (destruct (negb (PyStr.startswith (PyStr.strip content) "#"));
              eexists; reflexivity);
        destruct Hw as [ws Hw];
        destruct (persona_fold_keeps content l v ws Hw) as (Hv & _);
        rewrite Hv
    end.
    now destruct (negb (PyStr.startswith (PyStr.strip content) "#")).
  - repeat match goal with
           | |- context [if ?b then _ else _] => destruct b
           end; reflexivity.
Qed.

(** The status of the run on a listing. *)
Lemma status_on_listing (fs : filesystem) (pack now : string) :
  exists r,
    validate_all json_loads fs (__init__ pack) now = inr r
    /\ (overall_status r = "VALID" \/ overall_status r = "INVALID")
    /\ (overall_status r = "VALID" <->
        (forall f, In f (map fst (required_files (__init__ pack))) ->
                   in_good_order fs pack f)
        /\ exists n content,
             resolve fs pack "runtime_observations.jsonl" = Some n
             /\ read_text n = inr content
             /\ forallb (well_formed_record json_loads)
                  (PyStr.split PyStr.LF (PyStr.strip content)) = true).
Proof.
  eexists. split; [apply validate_all_init|].
  unfold report_of. cbn [overall_status].
  change (memory_pack_path (__init__ pack)) with pack.
  set (names := map fst (required_files (__init__ pack))).
  set (SV := forallb (structure_ok fs pack) names).
  set (CV := forallb (fun item => valid (snd item))
               (flat_map (content_entry json_loads fs pack) names)).
  split; [destruct (SV && CV); [left | right]; reflexivity|].
  assert (Hstatus : (if SV && CV then "VALID" else "INVALID") = "VALID"
                    <-> SV = true /\ CV = true).
  { destruct SV, CV; cbn; split; intros H; try tauto; try discriminate;
      destruct H; discriminate. }
  rewrite Hstatus. clear Hstatus. unfold SV, CV. clear SV CV.
  rewrite !forallb_forall. split.
  - intros [Hs Hc].
    assert (Hentry : forall f n, In f names -> resolve fs pack f = Some n ->
                                 valid (validation_of json_loads f n) = true).
    { intros f n Hf Hres.
      apply (Hc (f, validation_of json_loads f n)).
      now apply content_entry_present. }
    assert (Hgood : forall f, In f names -> in_good_order fs pack f).
    { intros f Hf. specialize (Hs f Hf). unfold structure_ok in Hs.
      destruct (resolve fs pack f) as [n|] eqn:Hres; [|discriminate].
      destruct (is_file n) as [e|b] eqn:Hb; [discriminate|].
      destruct (st_size n) as [e|size] eqn:Hsz; [discriminate|].
      destruct (read_text n) as [e|content] eqn:Hread.
      - pose proof (Hentry f n Hf Hres) as Hv.
        rewrite (unreadable_invalid f n e Hread) in Hv. discriminate.
      - now exists n, b, size, content. }
    split; [exact Hgood|].
    destruct (Hgood "runtime_observations.jsonl") as (n & b & size & content
                                                      & Hres & _ & _ & Hread).
    { cbn. tauto. }
    exists n, content. repeat split; try assumption.
    pose proof (Hentry "runtime_observations.jsonl" n ltac:(cbn; tauto) Hres) as Hv.
    rewrite (log_validation json_loads n content Hread) in Hv.
    apply (jsonl_valid_iff "runtime_observations.jsonl").
    destruct (_validate_jsonl_structure json_loads "runtime_observations.jsonl" content)
      as [e|v]; [discriminate|]. now exists v.
  - intros (Hgood & n & content & Hres & Hread & Hall). split.
    + intros f Hf. destruct (Hgood f Hf) as (n' & b & size & c' & Hr & Hb & Hsz & _).
      unfold structure_ok. now rewrite Hr, Hb, Hsz.
    + intros [f v] Hin. cbn [snd].
      apply in_flat_map in Hin as (f' & Hf' & Hin).
      unfold content_entry in Hin.
      destruct (Hgood f' Hf') as (n' & b & size & c' & Hr & _ & _ & Hread').
      rewrite Hr in Hin. destruct Hin as [[= <- <-]|[]].
      cbn in Hf'.
      destruct Hf' as [<-|[<-|[<-|[<-|[<-|[]]]]]];
        try (rewrite (readable_document_valid json_loads _ n' c') by (cbn; tauto || assumption);
             apply markdown_valid).
      rewrite Hres in Hr. injection Hr as <-.
      rewrite Hread in Hread'. injection Hread' as <-.
      rewrite (log_validation json_loads n content Hread).
      apply (jsonl_valid_iff "runtime_observations.jsonl") in Hall
        as (v' & Hrun & Hvalid).
      now rewrite Hrun.
Qed.


End ValidLog.

(** ** The command line *)

Section CommandLine.

Variable json_loads : string -> exc unit.
Variable json_dump : Results -> string.



End CommandLine.

(** ** Structured documents, exactly *)

Lemma persona_fold_exact (content : string) (sections : list string) :
  forall (v : Validation) (ws : list string),
    warnings v = Some ws ->
    fold_left (persona_step content) sections v
    = {| valid := valid v;
         warnings :=
           Some (ws ++ map (fun section => "Missing recommended section: " +:+ section)
                         (List.filter
                            (fun section =>
                               negb (PyStr.contains (PyStr.lower section)
                                       (PyStr.lower content)))
                            sections));
         metrics := metrics v;
         error := error v |}.
Proof.
  induction sections as [|s sections IH]; intros v ws Hws;
    cbn [fold_left List.filter map].
  - rewrite app_nil_r, <- Hws. now destruct v.
  - unfold persona_step at 2.
    destruct (negb (PyStr.contains (PyStr.lower s) (PyStr.lower content))).
    + rewrite (IH _ (ws ++ ["Missing recommended section: " +:+ s])).
      * cbn [valid metrics error append_warning map]. now rewrite <- app_assoc.
      * cbn. now rewrite Hws.
    + now apply IH.
Qed.

(** X4.  The whole result of [_validate_markdown_structure]: valid, no
    error, the three metrics in the order header, word and line count,
    and as warnings the header warning, if the stripped text does not
    start with [#], followed by the warnings of the file's own rule: for
    [persona.md] one per topic of Identity, Tone, Behavior,
    Self-Understanding that the content does not contain (case ignored),
    in that order; for [relationship_dynamics.md] one if [john] does not
    occur (case ignored); for [technical_domains.md] one if there are
    fewer than 50 words; for any other name none. *)
Theorem markdown_result (filename content : string) :
  _validate_markdown_structure filename content
  = {| valid := true;
       warnings := Some (header_warnings content ++ specific_warnings filename content);
       metrics :=
         Some [ ("header_count", PyStr.len (PyRe.findall_headers content));
                ("word_count", PyStr.len (PyStr.split_whitespace content));
                ("line_count", PyStr.len (PyStr.splitlines content)) ];
       error := None |}.
Proof.
  unfold _validate_markdown_structure, specific_warnings, header_warnings.
  destruct (String.eqb filename "persona.md").
  - destruct (PyStr.startswith (PyStr.strip content) "#"); cbn [negb];
      erewrite persona_fold_exact by reflexivity; reflexivity.
  - destruct (String.eqb filename "relationship_dynamics.md").
    + destruct (PyStr.startswith (PyStr.strip content) "#");
        destruct (PyStr.contains "john" (PyStr.lower content)); reflexivity.
    + destruct (String.eqb filename "technical_domains.md").
      * destruct (PyStr.startswith (PyStr.strip content) "#"); cbn [negb];
          change (get_metric "word_count" _)
            with (PyStr.len (PyStr.split_whitespace content));
          destruct (PyStr.len (PyStr.split_whitespace content) <? 50);
          reflexivity.
      * destruct (PyStr.startswith (PyStr.strip content) "#"); reflexivity.
Qed.

(** ** Event logs, further *)

Lemma all_space_rstrip_empty (s : string) :
  all_space s = true -> PyStr.rstrip s = EmptyString.
Proof.
  intros H. pose proof (all_space_rstrip s) as E. rewrite H in E.
  destruct (PyStr.rstrip s) as [|c r] eqn:Hr; [reflexivity|].
  exfalso. clear H. revert c r Hr E.
  induction s as [|c' s IH]; intros c r Hr E; cbn [PyStr.rstrip] in Hr;
    [discriminate|].
  destruct (PyStr.rstrip s) as [|c2 r2] eqn:Hs.
  - destruct (PyStr.isspace c') eqn:Hc; [discriminate|].
    injection Hr as <- <-. cbn in E. now rewrite Hc in E.
  - injection Hr as <- <-. cbn [all_space] in E.
    apply andb_prop in E as [_ E]. now apply (IH c2 r2).
Qed.

Lemma rstrip_append_space (s t : string) :
  all_space t = true -> PyStr.rstrip (s +:+ t) = PyStr.rstrip s.
Proof.
  intros Ht. induction s as [|c s IH];
    rewrite ?append_empty, ?append_String; cbn [PyStr.rstrip].
  - now apply all_space_rstrip_empty.
  - now rewrite IH.
Qed.

Lemma all_space_append (s t : string) :
  all_space (s +:+ t) = all_space s && all_space t.
Proof.
  induction s as [|c s IH]; rewrite ?append_empty, ?append_String;
    cbn [all_space]; [reflexivity|]. now rewrite IH, andb_assoc.
Qed.

(** Whitespace around a text does not change what [strip] returns. *)
Lemma strip_padded (before content after : string) :
  all_space before = true -> all_space after = true ->
  PyStr.strip (before +:+ content +:+ after) = PyStr.strip content.
Proof.
  intros Hb Ha. unfold PyStr.strip.
  rewrite lstrip_append, Hb, lstrip_append.
  destruct (all_space content) eqn:Hc.
  - rewrite (lstrip_all_space after Ha), (lstrip_all_space content Hc).
    reflexivity.
  - now apply rstrip_append_space.
Qed.

Section EventLogMore.

Variable json_loads : string -> exc unit.

(** X7.  Whitespace and blank lines before the first and after the last
    non-blank character of an event log change nothing in its
    validation: the line numbers in the warnings count from the first
    non-blank line of the file. *)
Theorem surrounding_whitespace_ignored (filename before content after : string) :
  all_space before = true ->
  all_space after = true ->
  _validate_jsonl_structure json_loads filename (before +:+ content +:+ after)
  = _validate_jsonl_structure json_loads filename content.
Proof.
  intros Hb Ha. unfold _validate_jsonl_structure.
  now rewrite (strip_padded before content after Hb Ha).
Qed.

Lemma jsonl_loop_inl (lines : list string) :
  forall (i : Z) (v : Validation) (c : Z) (e : exception),
    jsonl_loop json_loads lines i v c = inl e ->
    exists line m,
      e = Exception m /\ In line lines /\ blank line = false
      /\ json_loads line = inl (Exception m).
Proof.
  induction lines as [|line lines IH]; intros i v c e Hrun;
    cbn [jsonl_loop] in Hrun; [discriminate|].
  assert (Hrest : forall i v c,
    jsonl_loop json_loads lines i v c = inl e ->
    exists l m, e = Exception m /\ In l (line :: lines) /\ blank l = false
                /\ json_loads l = inl (Exception m)).
  { intros i' v' c' H. destruct (IH _ _ _ _ H) as (l & m & He & Hin & Hb & Hl).
    exists l, m. repeat split; try assumption. now right. }
  destruct (blank line) eqn:Hb; [now apply Hrest in Hrun|].
  destruct (json_loads line) as [[msg|msg]|[]] eqn:Hl;
    try (now apply Hrest in Hrun).
  injection Hrun as <-. exists line, msg. repeat split; try assumption. now left.
Qed.

(** X5.  What [_validate_jsonl_structure] can return.  A result carries
    [total_lines], at least 1, split into [valid_json_lines] and
    [invalid_lines], both non-negative; it is valid exactly when
    [invalid_lines] is 0, carries an error exactly when it is not, and
    never has more warnings than invalid lines.  An exception that leaves
    the function is one of a class other than [JSONDecodeError] that the
    decoder raised on a non-blank line. *)
Theorem jsonl_outcome (filename content : string) :
  let lines := PyStr.split PyStr.LF (PyStr.strip content) in
  match _validate_jsonl_structure json_loads filename content with
  | inr v =>
      let total := get_metric "total_lines" v in
      let good := get_metric "valid_json_lines" v in
      let bad := get_metric "invalid_lines" v in
      total = PyStr.len lines /\ 1 <= total /\ 0 <= good /\ 0 <= bad
      /\ good + bad = total
      /\ valid v = (bad =? 0)
      /\ error v = (if bad =? 0 then None
                    else Some (PyStr.str_of_int bad +:+ " invalid JSON lines"))
      /\ exists ws, warnings v = Some ws /\ PyStr.len ws <= bad
  | inl e =>
      exists line m,
        e = Exception m /\ In line lines /\ blank line = false
        /\ json_loads line = inl (Exception m)
  end.
Proof.
  cbn zeta.
  destruct (_validate_jsonl_structure json_loads filename content) as [e|v] eqn:Hrun.
  - revert Hrun. unfold _validate_jsonl_structure.
    cbn [bind ret Monad_exc exc_bind].
    destruct (jsonl_loop json_loads _ 0 fresh_validation 0) as [e'|[v1 c1]] eqn:Hloop;
      cbn [exc_bind]; [|discriminate].
    intros [= <-]. now apply (jsonl_loop_inl _ _ _ _ _ Hloop).
  - apply jsonl_structure_inr in Hrun as (Hm & Hv & He & ws & Hws & Hlen).
    cbn zeta in *.
    set (lines := PyStr.split PyStr.LF (PyStr.strip content)) in *.
    destruct (records_partition json_loads lines) as [Hbad Hgood].
    rewrite Hbad in Hlen.
    pose proof (filter_length_bound (fun line => negb (blank line)) lines) as HN.
    pose proof (filter_length_bound (malformed json_loads) (nonblank lines)) as HM.
    pose proof (filter_length_bound (well_formed_record json_loads) lines) as HG.
    assert (Hpos : (1 <= List.length lines)%nat).
    { pose proof (split_not_nil PyStr.LF (PyStr.strip content)) as Hne.
      fold lines in Hne. destruct lines; [contradiction | cbn; lia]. }
    unfold get_metric. rewrite Hm.
    cbn [default from_option dict_get String.eqb Ascii.eqb Bool.eqb].
    cbn -[Z.sub Z.eqb PyStr.str_of_int String.append PyStr.len well_formed_record
          List.filter].
    remember (PyStr.len lines) as n eqn:Hn.
    remember (PyStr.len (List.filter (well_formed_record json_loads) lines)) as g
      eqn:Hg.
    assert (Hrange : 1 <= n /\ 0 <= g <= n
                     /\ PyStr.len ws <= n - g).
    { subst n g. rewrite Hlen, Hgood. unfold PyStr.len, nonblank in *. lia. }
    destruct Hrange as (H1 & H2 & H3).
    assert (Heqb : (n =? g) = (n - g =? 0)).
    { destruct (Z.eqb_spec n g), (Z.eqb_spec (n - g) 0); lia || reflexivity. }
    rewrite Hv, He, Heqb.
    repeat split; try lia. now exists ws.
Qed.

(** The reference decoder raises nothing but [JSONDecodeError]. *)
Lemma reference_decoder_raises_only_decode_errors (s m : string) :
  PyJson.loads s <> inl (Exception m).
Proof.
  unfold PyJson.loads.
  destruct (PyJson.skip_ws s 0) as [s1 i1].
  destruct (PyJson.scan_once _ s1 i1) as [[msg pos]|[s2 i2]]; [discriminate|].
  destruct (PyJson.skip_ws s2 i2) as [s3 i3].
  destruct s3; discriminate.
Qed.

(** X9.  A blank line among the lines of the stripped content makes the
    log invalid, whatever else it holds. *)
Theorem blank_line_invalidates (filename content line : string) (v : Validation) :
  In line (PyStr.split PyStr.LF (PyStr.strip content)) ->
  blank line = true ->
  _validate_jsonl_structure json_loads filename content = inr v ->
  valid v = false /\ 1 <= get_metric "invalid_lines" v.
Proof.
  intros Hin Hblank Hrun.
  apply jsonl_structure_inr in Hrun as (Hm & Hv & _). cbn zeta in *.
  pose proof (filter_length_strict (well_formed_record json_loads) _ line Hin)
    as Hlt.
  assert (Hnot : well_formed_record json_loads line = false)
    by (unfold well_formed_record; now rewrite Hblank).
  specialize (Hlt Hnot). apply Nat2Z.inj_lt in Hlt.
  fold (PyStr.len (List.filter (well_formed_record json_loads)
                     (PyStr.split PyStr.LF (PyStr.strip content)))) in Hlt.
  fold (PyStr.len (PyStr.split PyStr.LF (PyStr.strip content))) in Hlt.
  remember (PyStr.len (PyStr.split PyStr.LF (PyStr.strip content))) as n.
  remember (PyStr.len (List.filter (well_formed_record json_loads)
                         (PyStr.split PyStr.LF (PyStr.strip content)))) as g.
  unfold get_metric. rewrite Hm, Hv. cbn -[Z.sub Z.eqb].
  split; [apply Z.eqb_neq|]; lia.
Qed.

(** X10.  The first non-blank line on which the decoder raises an
    exception of a class other than [JSONDecodeError] ends
    [_validate_jsonl_structure] with that exception; the content pass
    then records only [{'valid': False, 'error': str(e)}], and the
    warnings earned by the lines before it are lost. *)
Theorem decoder_exception_propagates (filename content : string)
    (before : list string) (line : string) (after : list string) (m : string) :
  PyStr.split PyStr.LF (PyStr.strip content) = before ++ line :: after ->
  (forall l m', In l before -> blank l = false ->
                json_loads l <> inl (Exception m')) ->
  blank line = false ->
  json_loads line = inl (Exception m) ->
  _validate_jsonl_structure json_loads filename content = inl (Exception m)
  /\ forall n, read_text n = inr content ->
               validation_of json_loads "runtime_observations.jsonl" n
               = failed_validation m.
Proof.
  intros Hsplit Hbefore Hblank Hline.
  assert (Hloop : forall i v c,
    jsonl_loop json_loads (before ++ line :: after) i v c = inl (Exception m)).
  { clear Hsplit. induction before as [|l before IH]; intros i v c;
      cbn [app jsonl_loop].
    - now rewrite Hblank, Hline.
    - assert (Hb' : forall l0 m', In l0 before -> blank l0 = false ->
                                  json_loads l0 <> inl (Exception m')).
      { intros l0 m' Hin. apply Hbefore. now right. }
      destruct (blank l) eqn:Hbl; [now apply IH|].
      destruct (json_loads l) as [[e|e]|[]] eqn:Hl; try now apply IH.
      exfalso. apply (Hbefore l e); [now left | assumption..]. }
  assert (Hrun : forall f,
    _validate_jsonl_structure json_loads f content = inl (Exception m)).
  { intros f. unfold _validate_jsonl_structure.
    cbn [bind ret Monad_exc exc_bind]. now rewrite Hsplit, Hloop. }
  split; [apply Hrun|].
  intros n Hread. rewrite (log_validation json_loads n content Hread).
  now rewrite Hrun.
Qed.

(** X6.  The warnings of an event log, exactly: one for each non-blank
    line on which the decoder raised [JSONDecodeError], in the order of
    the lines, each citing the position of its line among the lines of
    the stripped content, counted from 1, and the decoder's message. *)
Theorem jsonl_warnings_numbered (filename content : string) :
  match _validate_jsonl_structure json_loads filename content with
  | inr v =>
      warnings v
      = Some (flat_map (line_warning json_loads)
                (numbered 1 (PyStr.split PyStr.LF (PyStr.strip content))))
  | inl _ => True
  end.
Proof.
  unfold _validate_jsonl_structure. cbn [bind ret Monad_exc exc_bind].
  destruct (jsonl_loop json_loads _ 0 fresh_validation 0) as [e|[v1 c1]] eqn:Hloop;
    cbn [exc_bind]; [exact I|].
  pose proof (jsonl_loop_warnings json_loads _ _ _ _ _ _ [] Hloop eq_refl) as Hw.
  cbn [app] in Hw. change (0 + 1) with 1 in Hw.
  match goal with
  | |- warnings (if ?b then _ else _) = _ => destruct b
  end; cbn [warnings set_error set_valid set_metric]; exact Hw.
Qed.

End EventLogMore.

Lemma surrounding_whitespace_ignored_witness :
  let before := Fixtures.nl +:+ "  " +:+ Fixtures.nl in
  let after := " " +:+ Fixtures.nl +:+ Fixtures.nl in
  all_space before = true
  /\ all_space after = true
  /\ _validate_jsonl_structure PyJson.loads "runtime_observations.jsonl"
       (before +:+ Fixtures.log_broken +:+ after)
     = _validate_jsonl_structure PyJson.loads "runtime_observations.jsonl"
         Fixtures.log_broken.
Proof.
  cbn zeta. split; [reflexivity|]. split; [reflexivity|].
  apply (surrounding_whitespace_ignored PyJson.loads "runtime_observations.jsonl"
           (Fixtures.nl +:+ "  " +:+ Fixtures.nl) Fixtures.log_broken
           (" " +:+ Fixtures.nl +:+ Fixtures.nl));
    reflexivity.
Defined.

Lemma jsonl_structure_counts_witness :
  let lines := PyStr.split PyStr.LF (PyStr.strip Fixtures.log_broken) in
  (forall line m, In line lines -> blank line = false ->
                  PyJson.loads line <> inl (Exception m))
  /\ exists v ws,
       _validate_jsonl_structure PyJson.loads "runtime_observations.jsonl"
         Fixtures.log_broken = inr v
       /\ get_metric "valid_json_lines" v = 2 - 1
       /\ get_metric "invalid_lines" v = 3 - (2 - 1)
       /\ warnings v = Some ws /\ PyStr.len ws = 1
       /\ valid v = false.
Proof.
  cbn zeta.
  assert (Hexc : forall line m,
    In line (PyStr.split PyStr.LF (PyStr.strip Fixtures.log_broken)) ->
    blank line = false -> PyJson.loads line <> inl (Exception m)).
  { intros line m _ _. apply reference_decoder_raises_only_decode_errors. }
  split; [exact Hexc|].
  exact (jsonl_structure_counts PyJson.loads "runtime_observations.jsonl"
           Fixtures.log_broken Hexc).
Defined.

Lemma blank_line_invalidates_witness :
  In EmptyString (PyStr.split PyStr.LF (PyStr.strip Fixtures.log_with_gap))
  /\ blank EmptyString = true
  /\ exists v,
       _validate_jsonl_structure PyJson.loads "runtime_observations.jsonl"
         Fixtures.log_with_gap = inr v
       /\ valid v = false /\ 1 <= get_metric "invalid_lines" v.
Proof.
  assert (Hin : In EmptyString
                  (PyStr.split PyStr.LF (PyStr.strip Fixtures.log_with_gap)))
    by (vm_compute; tauto).
  split; [exact Hin|]. split; [reflexivity|].
  eexists. split; [vm_compute; reflexivity|].
  apply (blank_line_invalidates PyJson.loads "runtime_observations.jsonl"
           Fixtures.log_with_gap EmptyString _ Hin eq_refl).
  vm_compute. reflexivity.
Defined.

Lemma decoder_exception_propagates_witness :
  let content := Fixtures.text ["{bad"; "[[[[[[[[]]]]]]]]"; "{}"] in
  PyStr.split PyStr.LF (PyStr.strip content)
  = ["{bad"] ++ "[[[[[[[[]]]]]]]]" :: ["{}"]
  /\ malformed_record Fixtures.limited_loads "{bad" = true
  /\ Fixtures.limited_loads "[[[[[[[[]]]]]]]]"
     = inl (Exception "maximum recursion depth exceeded")
  /\ _validate_jsonl_structure Fixtures.limited_loads "runtime_observations.jsonl"
       content
     = inl (Exception "maximum recursion depth exceeded")
  /\ forall n, read_text n = inr content ->
               validation_of Fixtures.limited_loads "runtime_observations.jsonl" n
               = failed_validation "maximum recursion depth exceeded".
Proof.
  cbn zeta. split; [reflexivity|]. split; [reflexivity|]. split; [reflexivity|].
  apply (decoder_exception_propagates Fixtures.limited_loads
           "runtime_observations.jsonl"
           (Fixtures.text ["{bad"; "[[[[[[[[]]]]]]]]"; "{}"])
           ["{bad"] "[[[[[[[[]]]]]]]]" ["{}"]
           "maximum recursion depth exceeded").
  - reflexivity.
  - intros l m' [<-|[]] _. vm_compute. discriminate.
  - reflexivity.
  - reflexivity.
Defined.

Lemma appended_malformed_line_invalid_witness :
  single_line "{bad" = true
  /\ blank "{bad" = false
  /\ malformed PyJson.loads (PyStr.rstrip "{bad") = true
  /\ malformed PyJson.loads (PyStr.strip "{bad") = true
  /\ exists v,
       _validate_jsonl_structure PyJson.loads "runtime_observations.jsonl"
         (append_line "[1]" "{bad") = inr v
       /\ valid v = false.
Proof.
  repeat (split; [reflexivity|]).
  eexists. split; [vm_compute; reflexivity|].
  apply (appended_malformed_line_invalid PyJson.loads "runtime_observations.jsonl"
           "[1]" "{bad"); reflexivity.
Defined.

(** ** Recommendations and report entries, further *)

Lemma filter_nil_iff {A} (p : A -> bool) (l : list A) :
  List.filter p l = [] <-> Forall (fun x => p x = false) l.
Proof.
  induction l as [|x l IH]; cbn; [split; [constructor | reflexivity]|].
  destruct (p x) eqn:E.
  - split; [discriminate|]. intros H. inversion H; subst. congruence.
  - rewrite IH. split; [now constructor | intros H; now inversion H].
Qed.

Lemma flat_map_nil_iff {A B} (f : A -> list B) (l : list A) :
  flat_map f l = [] <-> Forall (fun x => f x = []) l.
Proof.
  induction l as [|x l IH]; cbn; [split; [constructor | reflexivity]|].
  split.
  - intros H. apply app_eq_nil in H as [H1 H2]. constructor; [assumption|].
    now apply IH.
  - intros H. inversion H as [|? ? H1 H2]; subst. rewrite H1. now apply IH.
Qed.

(** X12.  The recommendations stage never raises and changes nothing but
    the recommendations.  These are empty exactly when every recorded
    size is at least 100 bytes and no content validation carries a
    warning: an entry without a warnings list, as an [except] clause
    writes it, recommends nothing, so an invalid pack can come with no
    recommendation. *)
Theorem no_recommendations_iff (results : Results) :
  exists recs,
    _generate_recommendations results = inr (tt, set_recommendations recs results)
    /\ (recs = []
        <-> Forall (fun item => 100 <= size_bytes (snd item)) (file_structure results)
            /\ Forall (fun item => default [] (warnings (snd item)) = [])
                 (content_validation results)).
Proof.
  eexists. split.
  - unfold _generate_recommendations. cbn. unfold modify.
    rewrite recommendations_fold. reflexivity.
  - unfold spec_recommendations. split.
    + intros H. apply app_eq_nil in H as [H1 H2]. split.
      * apply map_eq_nil in H1. apply filter_nil_iff in H1.
        eapply List.Forall_impl; [|exact H1]. cbn. intros item Hlt.
        now apply Z.ltb_ge in Hlt.
      * apply flat_map_nil_iff in H2.
        eapply List.Forall_impl; [|exact H2]. cbn. intros item Hmap.
        now apply map_eq_nil in Hmap.
    + intros [H1 H2].
      assert (E1 : List.filter (fun item : string * FileResult =>
                                  size_bytes (snd item) <? 100)
                     (file_structure results) = []).
      { apply filter_nil_iff. eapply List.Forall_impl; [|exact H1]. cbn.
        intros item Hge. now apply Z.ltb_ge. }
      rewrite E1. cbn [map app]. apply flat_map_nil_iff.
      eapply List.Forall_impl; [|exact H2]. cbn. intros item ->. reflexivity.
Qed.

Lemma forallb_member_false {A} (p : A -> bool) (l : list A) (x : A) :
  In x l -> p x = false -> forallb p l = false.
Proof.
  intros Hin Hx. destruct (forallb p l) eqn:E; [|reflexivity].
  rewrite forallb_forall in E. rewrite (E x Hin) in Hx. discriminate.
Qed.

(** X13.  A required artifact that exists but whose [is_file()] or
    [stat()] raised has, as its file-structure entry, [exists] true, the
    flag [is_file()] returned ([False] if it was the one to raise), the
    size 0 and the message of the exception; the pack is [INVALID] and the
    artifact still gets the under-100-bytes note, whatever its real
    size. *)
Theorem metadata_failure_recommended (json_loads : string -> exc unit)
    (fs : filesystem) (pack now f descr : string) (n : node) (e : exception) :
  In (f, descr) (required_files (__init__ pack)) ->
  resolve fs pack f = Some n ->
  is_file n = inl e \/ (exists b, is_file n = inr b) /\ st_size n = inl e ->
  exists r,
    validate_all json_loads fs (__init__ pack) now = inr r
    /\ overall_status r = "INVALID"
    /\ In (f, {| exists_ := true;
                 readable := match is_file n with
                             | inr b => b
                             | inl _ => false
                             end;
                 size_bytes := 0;
                 description := descr;
                 file_error := Some (str_of_exception e) |})
          (file_structure r)
    /\ In ("Consider expanding " +:+ f +:+ " - currently very brief")
          (recommendations r).
Proof.
  intros Hitem Hres Hfail.
  exists (report_of json_loads fs (__init__ pack) now).
  split; [apply validate_all_init|].
  unfold report_of.
  cbn [overall_status file_structure recommendations].
  change (memory_pack_path (__init__ pack)) with pack.
  assert (Hfr : file_result_of fs pack f descr
                = {| exists_ := true;
                     readable := match is_file n with
                                 | inr b => b
                                 | inl _ => false
                                 end;
                     size_bytes := 0;
                     description := descr;
                     file_error := Some (str_of_exception e) |}).
  { unfold file_result_of. rewrite Hres.
    destruct Hfail as [He | [[b Hb] He]]; [now rewrite He | now rewrite Hb, He]. }
  assert (Hin : In (f, file_result_of fs pack f descr)
                  (map (file_entry fs pack) (required_files (__init__ pack)))).
  { apply in_map_iff. now exists (f, descr). }
  assert (Hbad : structure_ok fs pack f = false).
  { unfold structure_ok. rewrite Hres.
    destruct Hfail as [He | [[b Hb] He]]; [now rewrite He | now rewrite Hb, He]. }
  split.
  { rewrite (forallb_member_false _ _ f (in_map fst _ _ Hitem) Hbad).
    reflexivity. }
  split; [now rewrite <- Hfr|].
  rewrite recommendations_fold. unfold spec_recommendations.
  apply in_or_app. left.
  change ("Consider expanding " +:+ f +:+ " - currently very brief")
    with ((fun item : string * FileResult =>
             "Consider expanding " +:+ fst item +:+ " - currently very brief")
            (f, file_result_of fs pack f descr)).
  apply in_map. apply filter_In. split; [exact Hin|].
  cbn [snd]. now rewrite Hfr.
Qed.

Lemma metadata_failure_recommended_witness :
  let n := {| is_file := inr true;
              st_size := inl (Exception "[Errno 5] Input/output error");
              read_text := inr Fixtures.stylistic_voice_md |} in
  In ("stylistic_voice.md", "Communication patterns and signature style")
     (required_files (__init__ Fixtures.pack))
  /\ resolve Fixtures.unstattable_fs Fixtures.pack "stylistic_voice.md" = Some n
  /\ exists r,
       validate_all PyJson.loads Fixtures.unstattable_fs (__init__ Fixtures.pack)
         Fixtures.now = inr r
       /\ overall_status r = "INVALID"
       /\ In ("stylistic_voice.md",
              {| exists_ := true; readable := true; size_bytes := 0;
                 description := "Communication patterns and signature style";
                 file_error := Some "[Errno 5] Input/output error" |})
             (file_structure r)
       /\ In "Consider expanding stylistic_voice.md - currently very brief"
             (recommendations r).
Proof.
  cbn zeta.
  assert (Hitem : In ("stylistic_voice.md",
                      "Communication patterns and signature style")
                     (required_files (__init__ Fixtures.pack)))
    by (cbn; tauto).
  assert (Hres : resolve Fixtures.unstattable_fs Fixtures.pack "stylistic_voice.md"
                 = Some {| is_file := inr true;
                           st_size := inl (Exception "[Errno 5] Input/output error");
                           read_text := inr Fixtures.stylistic_voice_md |})
    by (vm_compute; reflexivity).
  split; [exact Hitem|]. split; [exact Hres|].
  exact (metadata_failure_recommended PyJson.loads Fixtures.unstattable_fs
           Fixtures.pack Fixtures.now "stylistic_voice.md" _ _
           (Exception "[Errno 5] Input/output error") Hitem Hres
           (or_intror (conj (ex_intro _ true eq_refl) eq_refl))).
Defined.

Lemma content_keys (json_loads : string -> exc unit) (fs : filesystem)
    (pack : string) (names : list string) :
  map fst (flat_map (content_entry json_loads fs pack) names)
  = List.filter
      (fun f => match resolve fs pack f with Some _ => true | None => false end)
      names.
Proof.
  induction names as [|f names IH]; cbn [flat_map List.filter]; [reflexivity|].
  rewrite map_app, IH. unfold content_entry.
  now destruct (resolve fs pack f).
Qed.

(** X14.  The two mappings of a report: [file_structure] lists the five
    artifacts in the fixed order, each with its fixed description and
    with [exists] telling whether the artifact is there;
    [content_validation] lists exactly the artifacts that exist, once
    each, in the same order. *)
Theorem report_entries_in_order (json_loads : string -> exc unit)
    (fs : filesystem) (pack now : string) :
  let present f :=
    match resolve fs pack f with Some _ => true | None => false end in
  exists r,
    validate_all json_loads fs (__init__ pack) now = inr r
    /\ map (fun item => (fst item, description (snd item))) (file_structure r)
       = required_files (__init__ pack)
    /\ map (fun item => exists_ (snd item)) (file_structure r)
       = map present (map fst (required_files (__init__ pack)))
    /\ map fst (content_validation r)
       = List.filter present (map fst (required_files (__init__ pack))).
Proof.
  cbn zeta. eexists. split; [apply validate_all_init|].
  unfold report_of. cbn [file_structure content_validation].
  change (memory_pack_path (__init__ pack)) with pack.
  split; [|split].
  - rewrite map_map. rewrite <- (map_id (required_files (__init__ pack))) at 2.
    apply map_ext. intros [f descr].
    unfold file_entry, file_result_of. cbn [fst snd].
    destruct (resolve fs pack f) as [n|]; [|reflexivity].
    destruct (is_file n); [reflexivity|]. now destruct (st_size n).
  - rewrite !map_map. apply map_ext. intros [f descr].
    unfold file_entry, file_result_of. cbn [fst snd].
    destruct (resolve fs pack f) as [n|]; [|reflexivity].
    destruct (is_file n); [reflexivity|]. now destruct (st_size n).
  - apply content_keys.
Qed.

(** * The inheritance tracker's checks *)

Lemma forallb_filter_negb {A} (p : A -> bool) (l : list A) :
  forallb p l
  = match List.filter (fun x => negb (p x)) l with [] => true | _ => false end.
Proof.
  induction l as [|x l IH]; cbn; [reflexivity|].
  destruct (p x); cbn; [exact IH | reflexivity].
Qed.

Lemma filter_partition_length {A} (p : A -> bool) (l : list A) :
  PyStr.len (List.filter p l) + PyStr.len (List.filter (fun x => negb (p x)) l)
  = PyStr.len l.
Proof.
  unfold PyStr.len. induction l as [|x l IH]; cbn; [reflexivity|].
  destruct (p x); cbn [negb List.length]; lia.
Qed.

Section TrackerChecks.

Variable fs : filesystem.
Variable self : Tracker.InheritanceTracker.

Let present (f : string) : bool :=
  match resolve fs (Tracker.memory_pack_path self) f with
  | Some _ => true
  | None => false
  end.

Lemma tracker_fold (names : list string) :
  forall c : Tracker.PackCheck,
    fold_left (Tracker.check_step fs self) names c
    = {| Tracker.valid := Tracker.valid c && forallb present names;
         Tracker.missing_files :=
           Tracker.missing_files c
           ++ List.filter (fun f => negb (present f)) names;
         Tracker.file_count :=
           Tracker.file_count c + PyStr.len (List.filter present names) |}.
Proof.
  unfold PyStr.len.
  induction names as [|f names IH]; intros c; cbn [fold_left forallb List.filter].
  - rewrite andb_true_r, app_nil_r. cbn. rewrite Z.add_0_r. now destruct c.
  - rewrite IH. unfold Tracker.check_step, present.
    destruct (resolve fs (Tracker.memory_pack_path self) f);
      cbn [Tracker.valid Tracker.missing_files Tracker.file_count negb andb
           List.length].
    + f_equal. lia.
    + rewrite <- app_assoc, andb_false_r. reflexivity.
Qed.

(** X15.  [InheritanceTracker._validate_memory_pack]: [missing_files]
    lists the required artifacts that do not exist, in the fixed order;
    [file_count] counts the ones that exist, so the two add up to 5; and
    [valid] holds exactly when nothing is missing. *)
Theorem tracker_pack_check :
  let check := Tracker._validate_memory_pack fs self in
  Tracker.missing_files check
  = List.filter (fun f => negb (present f)) Tracker.required_files
  /\ Tracker.file_count check = PyStr.len (List.filter present Tracker.required_files)
  /\ Tracker.file_count check + PyStr.len (Tracker.missing_files check) = 5
  /\ Tracker.valid check
     = match Tracker.missing_files check with [] => true | _ => false end.
Proof.
  cbn zeta. unfold Tracker._validate_memory_pack. rewrite tracker_fold.
  cbn [Tracker.valid Tracker.missing_files Tracker.file_count app andb].
  rewrite Z.add_0_l. repeat split.
  - apply (filter_partition_length present Tracker.required_files).
  - apply forallb_filter_negb.
Qed.

(** X16.  The tracker's check and the validator agree on presence: the
    tracker's [valid] is the conjunction of the [exists] flags of the
    validator's file-structure result for the same pack, so a pack the
    validator reports [VALID] passes the tracker's check. *)
Theorem tracker_agrees_with_validator (json_loads : string -> exc unit)
    (now : string) :
  exists r,
    validate_all json_loads fs (__init__ (Tracker.memory_pack_path self)) now
    = inr r
    /\ Tracker.valid (Tracker._validate_memory_pack fs self)
       = forallb (fun item => exists_ (snd item)) (file_structure r)
    /\ (overall_status r = "VALID" ->
        Tracker.valid (Tracker._validate_memory_pack fs self) = true).
Proof.
  eexists. split; [apply validate_all_init|].
  unfold report_of. cbn [file_structure overall_status].
  change (memory_pack_path (__init__ (Tracker.memory_pack_path self)))
    with (Tracker.memory_pack_path self).
  assert (Htracker : Tracker.valid (Tracker._validate_memory_pack fs self)
                     = forallb present Tracker.required_files).
  { unfold Tracker._validate_memory_pack. now rewrite tracker_fold. }
  rewrite Htracker. split.
  - change Tracker.required_files
      with (map fst (required_files (__init__ (Tracker.memory_pack_path self)))).
    generalize (required_files (__init__ (Tracker.memory_pack_path self))).
    intros items. induction items as [|[f descr] items IH];
      cbn [map forallb]; [reflexivity|].
    rewrite IH. f_equal.
    unfold present, file_entry, file_result_of. cbn [fst snd].
    destruct (resolve fs (Tracker.memory_pack_path self) f) as [n|];
      [|reflexivity].
    destruct (is_file n); [reflexivity|]. now destruct (st_size n).
  - intros Hstatus.
    destruct (forallb (structure_ok fs (Tracker.memory_pack_path self)) _)
      eqn:Hs; [|discriminate].
    apply forallb_forall. intros f Hf.
    rewrite forallb_forall in Hs. specialize (Hs f Hf).
    unfold structure_ok in Hs. unfold present.
    now destruct (resolve fs (Tracker.memory_pack_path self) f).
Qed.

End TrackerChecks.

(** ** The detected identity *)

Lemma rstrip_idem (s : string) : PyStr.rstrip (PyStr.rstrip s) = PyStr.rstrip s.
Proof.
  induction s as [|c s IH]; cbn [PyStr.rstrip]; [reflexivity|].
  destruct (PyStr.rstrip s) as [|c' r] eqn:E.
  - destruct (PyStr.isspace c) eqn:Hc; cbn [PyStr.rstrip]; [reflexivity|].
    now rewrite Hc.
  - cbn [PyStr.rstrip]. cbn [PyStr.rstrip] in IH. now rewrite IH.
Qed.

Lemma lstrip_head (s : string) :
  PyStr.lstrip s = EmptyString
  \/ exists c t, PyStr.lstrip s = String c t /\ PyStr.isspace c = false.
Proof.
  induction s as [|c s IH]; cbn [PyStr.lstrip]; [now left|].
  destruct (PyStr.isspace c) eqn:Hc; [exact IH|]. right. now exists c, s.
Qed.

Lemma strip_idem (s : string) : PyStr.strip (PyStr.strip s) = PyStr.strip s.
Proof.
  unfold PyStr.strip.
  destruct (lstrip_head s) as [-> | (c & t & -> & Hc)]; [reflexivity|].
  assert (Hhead : exists t', PyStr.rstrip (String c t) = String c t').
  { cbn [PyStr.rstrip]. destruct (PyStr.rstrip t); [|now eexists].
    rewrite Hc. now eexists. }
  destruct Hhead as [t' Ht']. rewrite Ht'. cbn [PyStr.lstrip]. rewrite Hc.
  rewrite <- Ht'. apply rstrip_idem.
Qed.

(** A line that contains a colon splits into at least two parts:
    [line.split(':')[1]] cannot raise. *)
Lemma colon_split_has_second (line : string) :
  PyStr.contains ":" line = true ->
  exists part, nth_error (PyStr.split ":"%char line) 1 = Some part.
Proof.
  induction line as [|c line IH]; cbn [PyStr.contains PyStr.split];
    [discriminate|].
  destruct (Ascii.eqb_spec c ":"%char) as [->|Hne].
  - intros _. pose proof (split_not_nil ":"%char line) as Hnil.
    destruct (PyStr.split ":"%char line) as [|x xs]; [contradiction|].
    now exists x.
  - assert (Hp : String.prefix ":" (String c line) = false).
    { cbn [String.prefix].
      destruct (ascii_dec ":"%char c) as [E|E]; [congruence | reflexivity]. }
    rewrite Hp. cbn [orb]. intros H. destruct (IH H) as [part Hpart].
    destruct (PyStr.split ":"%char line) as [|x xs]; [discriminate|].
    now exists part.
Qed.

Lemma scan_for_name_spec (lines : list string) :
  match Tracker.scan_for_name lines with
  | inr (Some name) =>
      String.eqb name EmptyString = false
      /\ String.eqb name "[Your AI Name]" = false
      /\ exists line part,
           In line lines /\ PyStr.contains "Name" line = true
           /\ nth_error (PyStr.split ":"%char line) 1 = Some part
           /\ name = PyStr.strip part
  | inr None => True
  | inl _ => False
  end.
Proof.
  induction lines as [|line lines IH]; cbn [Tracker.scan_for_name]; [exact I|].
  assert (Hrest :
    match Tracker.scan_for_name lines with
    | inr (Some name) =>
        String.eqb name EmptyString = false
        /\ String.eqb name "[Your AI Name]" = false
        /\ exists l part,
             In l (line :: lines) /\ PyStr.contains "Name" l = true
             /\ nth_error (PyStr.split ":"%char l) 1 = Some part
             /\ name = PyStr.strip part
    | inr None => True
    | inl _ => False
    end).
  { destruct (Tracker.scan_for_name lines) as [e|[name|]]; try exact IH.
    destruct IH as (H1 & H2 & l & part & Hin & Hrest).
    repeat split; try assumption. exists l, part. split; [now right | exact Hrest]. }
  destruct (PyStr.contains "Name" line) eqn:Hname; cbn [andb]; [|exact Hrest].
  destruct (PyStr.contains ":" line) eqn:Hcolon; [|exact Hrest].
  destruct (colon_split_has_second line Hcolon) as [part Hpart]. rewrite Hpart.
  destruct (String.eqb (PyStr.strip part) EmptyString) eqn:H1; cbn [negb andb];
    [exact Hrest|].
  destruct (String.eqb (PyStr.strip part) "[Your AI Name]") eqn:H2; cbn [negb];
    [exact Hrest|].
  repeat split; try assumption. exists line, part. repeat split; try assumption.
  now left.
Qed.


(** The template line is passed over and the next [Name] line gives the
    identity, cut at its second colon. *)
Example detected_identity_scenario :
  Tracker._detect_current_identity
    (Fixtures.make_fs [("persona.md", Fixtures.named_persona_md)])
    {| Tracker.memory_pack_path := Fixtures.pack;
       Tracker.git_repo_path := None;
       Tracker.inheritance_log_path := "/packs/alice/inheritance_log.json" |}
  = "Alice".
Proof. vm_compute. reflexivity. Qed.
